(** * Lancer for Foundry VTT: registry collection wrappers and stat flows

    A shallow embedding of
    - [src/module/mm-util/db_abstractions.ts]: the document blob builder
      [as_document_blob], the collection resolver
      [NuWrapper.lookup_collection], the [NuWrapper] constructor and its
      operations [create_many], [get], [query], [enumerate];
    - [src/module/flows/stat.ts]: [prepareStatMacro], [prepareSkillMacro]
      and [rollStatMacro].

    JavaScript objects used as dictionaries are finite maps keyed by
    strings, promises are represented by their settled state, and the calls
    that change something outside (the console, the documents of the
    backend, the HUD, dice and chat) are recorded in a trace of events; the
    reads of a collection are answered from the collection as it stands. *)

From Stdlib Require Import ZArith Ascii String DecimalString.
From stdpp Require Import base option list strings gmap.

Open Scope string_scope.

(** ** JavaScript basics *)

(** Values of type [any]: the payload of documents and of query criteria,
    with what the runtime and the host do on them: the value [undefined], a
    string as a value, [==], the members every plain object inherits from
    [Object.prototype], the step of the host's [mergeObject] on a key both
    objects hold ([merge_update x v] is what is left under the key when it
    held [x] and the other object brings [v]: the two merged when both are
    plain objects, [v] otherwise), and the host's deep copy [duplicate] of a
    plain object (a round trip through JSON). *)
Class JsAny (V : Type) := {
  undefined : V;
  of_string : string -> V;
  loose_eq : V -> V -> bool;
  object_prototype : gmap string V;
  merge_update : V -> V -> V;
  duplicate : gmap string V -> gmap string V
}.

(** [a != b] *)
Definition loose_neq `{JsAny V} (a b : V) : bool := negb (loose_eq a b).

(** The own field of a plain object under a key, [undefined] when it has
    none. *)
Definition own_field `{JsAny V} (obj : gmap string V) (k : string) : V :=
  default undefined (obj !! k).

(** [obj[k]] on a plain object: its own field, else the member it inherits
    from [Object.prototype], else [undefined]. *)
Definition prop `{JsAny V} (obj : gmap string V) (k : string) : V :=
  match obj !! k with
  | Some v => v
  | None => default undefined (object_prototype !! k)
  end.

(** Truthiness of a string: every string but the empty one. *)
Definition truthy_string (s : string) : bool := negb (String.eqb s "").

(** Truthiness of [string | null | undefined]. *)
Definition truthy_opt_string (o : option string) : bool :=
  match o with
  | Some s => truthy_string s
  | None => false
  end.

(** Truthiness of [object | null | undefined]: objects are truthy. *)
Definition truthy_obj {A} (o : option A) : bool :=
  match o with
  | Some _ => true
  | None => false
  end.

(** [a != b] for [a : string | undefined] and [b : string]. *)
Definition name_differs (a : option string) (b : string) : bool :=
  match a with
  | Some s => negb (String.eqb s b)
  | None => true
  end.

Inductive JsError :=
  | Error (msg : string)
  | TypeError.

(** The settled state of a promise. *)
Inductive Promise (A : Type) :=
  | Fulfilled (a : A)
  | Rejected (e : JsError).
Arguments Fulfilled {A} a.
Arguments Rejected {A} e.

(** The completion of a synchronous call. *)
Inductive Completion (A : Type) :=
  | Normal (a : A)
  | Throw (e : JsError).
Arguments Normal {A} a.
Arguments Throw {A} e.

(** What a host call hands back: a value, or a promise of one. *)
Inductive HostReturn (A : Type) :=
  | Plain (a : A)
  | Pending (p : Promise A).
Arguments Plain {A} a.
Arguments Pending {A} p.

(** An async function: the events it causes, in order, and how its promise
    settles. *)
Definition Async (E A : Type) : Type := list E * Promise A.

Definition ret {E A} (a : A) : Async E A := ([], Fulfilled a).
Definition throw {E A} (e : JsError) : Async E A := ([], Rejected e).
Definition await {E A} (p : Promise A) : Async E A := ([], p).
Definition emit {E} (ev : E) : Async E unit := ([ev], Fulfilled tt).

Definition bind {E A B} (m : Async E A) (k : A -> Async E B) : Async E B :=
  match m with
  | (tr, Fulfilled a) => let (tr', r) := k a in ((tr ++ tr')%list, r)
  | (tr, Rejected e) => (tr, Rejected e)
  end.

Notation "'let*' x ':=' m 'in' k" := (bind m (fun x => k))
  (at level 10, x name, m at level 100, k at level 200).

(** A call whose promise is dropped: its events happen, its outcome is not
    looked at. *)
Definition detach {E A} (m : Async E A) : Async E unit :=
  (fst m, Fulfilled tt).

Definition trace {E A} (m : Async E A) : list E := fst m.
Definition outcome {E A} (m : Async E A) : Promise A := snd m.

(** The same async function, its events seen in a larger alphabet. *)
Definition relabel {E F A} (f : E -> F) (m : Async E A) : Async F A :=
  (List.map f (fst m), snd m).

(** [return x] in an async function, for what a host call handed back: a
    promise is adopted, a value fulfils. *)
Definition adopt {A} (r : HostReturn A) : Promise A :=
  match r with
  | Plain a => Fulfilled a
  | Pending p => p
  end.

(** [!x] on [object | undefined]. *)
Definition absent {A} (o : option A) : bool :=
  match o with
  | Some _ => false
  | None => true
  end.

(** ** Data model of db_abstractions.ts *)

Abbreviation EntryType := string (only parsing).

Section DbAbstractions.
Context {V : Type} `{JsAny V}.

(** [flags.top_level_data]: the pending document-level fields: its [name],
    the [_id] and the [data] object it carries, if any, and its other
    fields. *)
Record TopLevelData := {
  tl_name : option string;
  tl_id : option string;
  tl_data : option (gmap string V);
  tl_rest : gmap string V
}.

(** Modelled from the spec: [FoundryFlagData] is declared in foundry-reg;
    it holds the pending top-level overrides and the name the document had
    when it was loaded, the two fields the module reads. *)
Record FoundryFlagData := {
  top_level_data : TopLevelData;
  orig_doc_name : string
}.

(** A live machine-mind entry: [ent.Name], [ent.RegistryID], [ent.Flags] and
    the rest of its fields. *)
Record LiveEntry := {
  Name : string;
  RegistryID : string;
  Flags : FoundryFlagData;
  own_fields : gmap string V
}.

(** The record handed to [updateDocuments]: [_id], [data] and the merged
    top-level fields. *)
Record DocumentBlob := {
  blob_id : string;
  blob_data : gmap string V;
  blob_name : option string;
  blob_rest : gmap string V
}.

(** [ent.save()] is machine-mind's serialiser. *)
Variable save : LiveEntry -> gmap string V.

(** The host's merge of one plain object into another, key by key: a key
    the original lacks is inserted, a key it holds is updated. *)
Definition merge_fields (original other : gmap string V) : gmap string V :=
  union_with (fun v x => Some (merge_update x v)) other original.

(** Modelled from the spec: [mergeObject] is the host's helper; the base
    object carries [_id] and [data], and every key of the second argument is
    put on top of it, the top-level keys taking precedence: a top-level
    [_id] replaces the base one, a top-level [data] is merged into the base
    one, and the other keys are added. *)
Definition mergeObject (id : string) (data : gmap string V)
    (top : TopLevelData) : DocumentBlob :=
  {| blob_id := default id (tl_id top);
     blob_data :=
       match tl_data top with
       | Some d => merge_fields data d
       | None => data
       end;
     blob_name := tl_name top;
     blob_rest := tl_rest top |}.

Definition set_Name (ent : LiveEntry) (n : string) : LiveEntry :=
  {| Name := n;
     RegistryID := RegistryID ent;
     Flags := Flags ent;
     own_fields := own_fields ent |}.

(** [as_document_blob(ent)]: the entry as the call leaves it (the function
    assigns [ent.Name]), and the blob it returns. *)
Definition as_document_blob (ent : LiveEntry) : LiveEntry * DocumentBlob :=
  let flags := Flags ent in
  let ent' :=
    if truthy_opt_string (tl_name (top_level_data flags))
       && name_differs (tl_name (top_level_data flags)) (orig_doc_name flags)
    then
      (* ent.Name = flags.top_level_data.name *)
      set_Name ent (default "" (tl_name (top_level_data flags)))
    else if truthy_string (Name ent)
            && negb (String.eqb (Name ent) (orig_doc_name flags))
    then
      (* flags.top_level_data.name;   an expression statement: nothing is
         assigned *)
      let _ := tl_name (top_level_data flags) in ent
    else ent in
  (ent',
   mergeObject (RegistryID ent') (save ent') (top_level_data (Flags ent'))).

(** *** Documents, collections and the game registries *)

Inductive DocumentClass := ActorClass | ItemClass.

(** A host document, and a host collection of documents (a world
    collection, the embedded items of an actor, or a compendium).
    [contents] holds the values of the collection in key order and
    [collection.get(id)] finds the one stored under [id]; [getDocument] and
    [getDocuments] are the asynchronous fetches of a compendium. *)
Inductive Document := mkDocument {
  doc_id : string;               (* data._id, its key in the collection *)
  doc_type : string;             (* type *)
  doc_data : gmap string V;      (* data.data *)
  doc_source : gmap string V;    (* data._source.data *)
  doc_items : option Collection  (* items, on an actor *)
}
with Collection := mkCollection {
  contents : list Document;
  parent : option string;        (* the owning document, by id *)
  documentClass : DocumentClass;
  getDocument : string -> option Document;
  getDocuments : gmap string V -> list Document
}.

(** [collection.get(id)] *)
Definition coll_get (c : Collection) (id : string) : option Document :=
  List.find (fun d => String.eqb (doc_id d) id) (contents c).

Record Token := { token_actor : option Document }.

Record Scene := { tokens : gmap string Token }.

(** The registries of the global [game]. *)
Record Game := {
  packs : gmap string Collection;
  actors : Collection;
  items : Collection;
  scenes : gmap string Scene
}.

(** Modelled from the spec: [FoundryRegNameParsed] is declared in
    foundry-reg; it is a tagged union with one variant per value of
    [cfg.src], each with the fields that [lookup_collection] and the
    constructor read from it. *)
Inductive FoundryRegNameParsed :=
  | src_comp_actor (comp_id token_id actor_id : string)
  | src_game_actor (actor_id : string)
  | src_scene_token (scene_id token_id : string)
  | src_comp (comp_id : string)
  | src_comp_core
  | src_game
  | src_scene (scene_id : string).

(** The sources that name a compendium. *)
Definition pack_source (cfg : FoundryRegNameParsed) : bool :=
  match cfg with
  | src_comp _ | src_comp_actor _ _ _ | src_comp_core => true
  | _ => false
  end.

(** The bare scene source. *)
Definition bare_scene_source (cfg : FoundryRegNameParsed) : bool :=
  match cfg with
  | src_scene _ => true
  | _ => false
  end.

(** The sources rooted in a scene: the bare scene and a token of a scene. *)
Definition scene_rooted (cfg : FoundryRegNameParsed) : bool :=
  match cfg with
  | src_scene _ | src_scene_token _ _ => true
  | _ => false
  end.

(** Helpers of the repository that the module imports. *)
Variable get_pack_id : EntryType -> string.
Variable is_actor_type : EntryType -> bool.

(** What a call of the async [lookup_collection] leaves behind: the promise
    it returns, and the promise chain it starts without returning or
    awaiting it (if any). The value [None] of a handle is [undefined]. *)
Record Resolution := {
  returned : Promise (option Collection);
  detached : option (Promise (option Collection))
}.

Definition settled (p : Promise (option Collection)) : Resolution :=
  {| returned := p; detached := None |}.

Definition quote : string := String (Ascii.ascii_of_nat 34) EmptyString.

Definition lookup_collection (game : Game) (entry_type : EntryType)
    (cfg : FoundryRegNameParsed) : Resolution :=
  match cfg with
  | src_comp_actor comp_id token_id actor_id =>
      match packs game !! comp_id with
      | None => settled (Rejected (Error ("Couldn't find pack " ++ comp_id)))
      | Some actor_pack =>
          (* actor_pack.getDocument(cfg.token_id).then(...) stands as a
             statement of its own; the function then runs off its end *)
          {| returned := Fulfilled None;
             detached := Some
               match getDocument actor_pack token_id with
               | None =>
                   Rejected (Error ("Pack " ++ comp_id
                     ++ " didn't have actor with id " ++ actor_id))
               | Some actor => Fulfilled (doc_items actor)
               end |}
      end
  | src_game_actor actor_id =>
      match coll_get (actors game) actor_id with
      | None =>
          settled (Rejected (Error ("Couldn't find game actor " ++ actor_id)))
      | Some actor => settled (Fulfilled (doc_items actor))
      end
  | src_scene_token scene_id token_id =>
      match scenes game !! scene_id with
      | None => settled (Rejected (Error ("Couldn't find scene " ++ scene_id)))
      | Some scene =>
          match tokens scene !! token_id with
          | None =>
              settled (Rejected (Error ("Couldn't find token " ++ token_id
                ++ " in scene " ++ scene_id)))
          | Some token =>
              match token_actor token with
              | None =>
                  settled (Rejected (Error ("Token " ++ token_id
                    ++ " has no actor")))
              | Some actor => settled (Fulfilled (doc_items actor))
              end
          end
      end
  | src_comp comp_id =>
      match packs game !! comp_id with
      | None =>
          settled (Rejected (Error ("Pack " ++ comp_id ++ " does not exist")))
      | Some pack =>
          (* the branch ends here, without a return statement *)
          settled (Fulfilled None)
      end
  | src_comp_core =>
      let comp_id := get_pack_id entry_type in
      match packs game !! comp_id with
      | None =>
          settled (Rejected (Error ("Core pack " ++ comp_id
            ++ " does not exist")))
      | Some pack =>
          (* the branch ends here, without a return statement *)
          settled (Fulfilled None)
      end
  | src_game =>
      if is_actor_type entry_type
      then settled (Fulfilled (Some (actors game)))
      else settled (Fulfilled (Some (items game)))
  | src_scene _ => settled (Fulfilled (Some (actors game)))
  end.

(** *** The wrapper *)

Record NuWrapper := {
  entry_type : EntryType;
  collection : Promise (option Collection);
  scene : option Scene;
  pack : option string
}.

(** [new NuWrapper(type, cfg)] *)
Definition NuWrapper_new (game : Game) (type : EntryType)
    (cfg : FoundryRegNameParsed) : Completion NuWrapper :=
  let this_pack :=
    match cfg with
    | src_comp comp_id | src_comp_actor comp_id _ _ => Some comp_id
    | src_comp_core => Some (get_pack_id type)
    | _ => None
    end in
  let this_scene :=
    match cfg with
    | src_scene scene_id =>
        match scenes game !! scene_id with
        | Some s => Normal (Some s)
        | None =>
            Throw (Error ("Invalid scene id: " ++ quote ++ scene_id ++ quote))
        end
    | _ => Normal None
    end in
  match this_scene with
  | Throw e => Throw e
  | Normal sc =>
      Normal {| entry_type := type;
                collection := returned (lookup_collection game type cfg);
                scene := sc;
                pack := this_pack |}
  end.

(** *** Effects of the wrapper's operations *)

(** [{ type, name, data }], one per record given to [createDocuments]. *)
Record CreateData := {
  cd_type : EntryType;
  cd_name : V;
  cd_data : gmap string V
}.

(** The options of a document modification; [ctx_parent = None] when the
    object has no [parent] key. *)
Record ModificationContext := {
  ctx_parent : option string;
  ctx_pack : option string
}.

(** The calls by which the operations change something outside: a line on
    the console's error channel, and a bulk create on the backend. (The
    reads of a collection are answered from the [Collection] record.) *)
Inductive Event :=
  | ConsoleError (msg : string)
  | CreateDocuments (cls : DocumentClass) (data : list CreateData)
      (ctx : ModificationContext).

(** The events that change the documents of the backend. *)
Definition is_create (ev : Event) : bool :=
  match ev with
  | CreateDocuments _ _ _ => true
  | ConsoleError _ => false
  end.

(** [documentClass.createDocuments(data, context)] of the host. *)
Variable createDocuments :
  DocumentClass -> list CreateData -> ModificationContext ->
  HostReturn (list Document).


(** Reading a property of the awaited collection: a [TypeError] on
    [undefined]. *)
Definition deref (h : option Collection) : Async Event Collection :=
  match h with
  | Some c => ret c
  | None => throw TypeError
  end.

Record GetResult := {
  gr_data : option (gmap string V);  (* [None]: undefined *)
  gr_entity : Document;
  gr_id : string;
  gr_type : EntryType
}.

(** [non_scene_opts()] *)
Definition non_scene_opts (this : NuWrapper)
    : Async Event ModificationContext :=
  let* h := await (collection this) in
  let* c := deref h in
  match parent c with
  | Some p => ret {| ctx_parent := Some p; ctx_pack := pack this |}
  | None => ret {| ctx_parent := None; ctx_pack := pack this |}
  end.

(** [create_many(reg_data)] *)
Definition create_many (this : NuWrapper) (reg_data : list (gmap string V))
    : Async Event (list GetResult) :=
  if truthy_obj (scene this) then
    let* _ := emit (ConsoleError
                  "Creating tokens via registry is not yet supported") in
    ret []
  else
    let* h := await (collection this) in
    let* c := deref h in
    let data :=
      map (fun d => {| cd_type := entry_type this;
                       cd_name := prop d "name";
                       cd_data := duplicate d |}) reg_data in
    let* opts := non_scene_opts this in
    let* _ := emit (CreateDocuments (documentClass c) data opts) in
    match createDocuments (documentClass c) data opts with
    | Plain new_docs =>
        ret (imap (fun index item =>
                     {| gr_id := doc_id item;
                        gr_entity := item;
                        gr_type := entry_type this;
                        gr_data := reg_data !! index |}) new_docs)
    | Pending _ =>
        (* the call's promise is not awaited, and a promise has no [map] *)
        throw TypeError
    end.

(** [get(id)]; the result [None] is [null]. *)
Definition get (this : NuWrapper) (id : string)
    : Async Event (option GetResult) :=
  let* h := await (collection this) in
  let* fi := (if truthy_opt_string (pack this)
         then let* c := deref h in ret (getDocument c id)
         else let* c := deref h in ret (coll_get c id)) in
  match fi with
  | Some fi =>
      if String.eqb (doc_type fi) (entry_type this)
      then ret (Some {| gr_data := Some (doc_data fi);
                        gr_entity := fi;
                        gr_id := id;
                        gr_type := entry_type this |})
      else ret None
  | None => ret None
  end.

(** The loop over [Object.entries(query_obj)] in the filter of [query]:
    [false] at the first entry the document differs on. *)
Fixpoint check_entries (doc : Document) (entries : list (string * V)) : bool :=
  match entries with
  | [] => true
  | (k, v) :: rest =>
      if loose_neq (prop (doc_source doc) k) v
      then false
      else check_entries doc rest
  end.

(** The callback given to [all.filter]. *)
Definition query_filter (this : NuWrapper) (query_obj : gmap string V)
    (doc : Document) : bool :=
  if negb (String.eqb (doc_type doc) (entry_type this))
  then false
  else check_entries doc (map_to_list query_obj).

Definition to_GetResult (this : NuWrapper) (e : Document) : GetResult :=
  {| gr_id := doc_id e;
     gr_data := Some (doc_data e);
     gr_entity := e;
     gr_type := entry_type this |}.

(** [query(query_obj)] *)
Definition query (this : NuWrapper) (query_obj : gmap string V)
    : Async Event (list GetResult) :=
  let* h := await (collection this) in
  let* all := (if truthy_opt_string (pack this)
          then
            let* c := deref h in
            ret (getDocuments c
                   (<["type" := of_string (entry_type this)]> query_obj))
          else
            let* c := deref h in
            ret (List.filter (fun doc => query_filter this query_obj doc)
                        (contents c))) in
  ret (map (to_GetResult this) all).

(** [enumerate()] *)
Definition enumerate (this : NuWrapper) : Async Event (list GetResult) :=
  query this ∅.

(** *** What the operations are specified against *)

(** The document [get] looks at: the per-id fetch of a pack-backed
    wrapper, the in-memory lookup otherwise. *)
Definition fetched (w : NuWrapper) (c : Collection) (id : string)
    : option Document :=
  if truthy_opt_string (pack w) then getDocument c id else coll_get c id.

(** A document agrees with one criterion: what [_source.data[k]] reads (the
    raw persisted field under the key, else the member inherited under that
    name, else [undefined]) is [==] to the required value. *)
Definition agrees (d : Document) (k : string) (v : V) : Prop :=
  loose_eq (prop (doc_source d) k) v = true.

#[global] Instance agrees_dec d k v : Decision (agrees d k v).
Proof. unfold agrees. apply _. Defined.

(** A document answers a query of a wrapper: its type is the wrapper's entry
    type, and it agrees with every criterion. *)
Definition satisfies (w : NuWrapper) (query_obj : gmap string V)
    (d : Document) : Prop :=
  doc_type d = entry_type w
  /\ forall k v, query_obj !! k = Some v -> agrees d k v.

#[global] Instance satisfies_dec w query_obj d :
  Decision (satisfies w query_obj d).
Proof.
  unfold satisfies.
  apply and_dec; [apply _|].
  apply (map_Forall_dec (agrees d)).
Defined.

(** The criterion read on the raw persisted fields alone: the document's
    own field under the key ([undefined] when it has none) is [==] to the
    required value. *)
Definition field_agrees (d : Document) (k : string) (v : V) : Prop :=
  loose_eq (own_field (doc_source d) k) v = true.

#[global] Instance field_agrees_dec d k v : Decision (field_agrees d k v).
Proof. unfold field_agrees. apply _. Defined.

(** The raw persisted fields of a document answer a query of a wrapper: its
    type is the wrapper's entry type, and its own fields equal the criteria
    on every key. *)
Definition matches_fields (w : NuWrapper) (query_obj : gmap string V)
    (d : Document) : Prop :=
  doc_type d = entry_type w
  /\ forall k v, query_obj !! k = Some v -> field_agrees d k v.

#[global] Instance matches_fields_dec w query_obj d :
  Decision (matches_fields w query_obj d).
Proof.
  unfold matches_fields.
  apply and_dec; [apply _|].
  apply (map_Forall_dec (field_agrees d)).
Defined.


(** *** The write operations [update] and [destroy] *)

(** The calls of [update] and [destroy] that leave the module. *)
Inductive WriteEvent :=
  | UpdateDocuments (cls : DocumentClass) (blobs : list DocumentBlob)
      (ctx : ModificationContext)
  | DeleteDocuments (cls : DocumentClass) (ids : list string)
      (ctx : ModificationContext).

(** [documentClass.updateDocuments] and [documentClass.deleteDocuments] of
    the host. *)
Variable updateDocuments :
  DocumentClass -> list DocumentBlob -> ModificationContext ->
  HostReturn (list Document).
Variable deleteDocuments :
  DocumentClass -> list string -> ModificationContext ->
  HostReturn (list Document).

(** [update(items)]: the entries as the call leaves them
    ([items.map(as_document_blob)] assigns their names, once the document
    class has been read off the awaited collection), and the async call
    itself. *)
Definition update (this : NuWrapper) (items : list LiveEntry)
    : list LiveEntry * Async (Event + WriteEvent) (list Document) :=
  (match collection this with
   | Fulfilled (Some _) => List.map (fun ent => fst (as_document_blob ent)) items
   | _ => items
   end,
   let* h := await (collection this) in
   let* c := relabel inl (deref h) in
   let blobs := List.map (fun ent => snd (as_document_blob ent)) items in
   let* opts := relabel inl (non_scene_opts this) in
   let* _ := emit (inr (UpdateDocuments (documentClass c) blobs opts)) in
   await (adopt (updateDocuments (documentClass c) blobs opts))).

(** [destroy(id)] *)
Definition destroy (this : NuWrapper) (id : string)
    : Async (Event + WriteEvent) (list Document) :=
  let* h := await (collection this) in
  let* c := relabel inl (deref h) in
  let* opts := relabel inl (non_scene_opts this) in
  let* _ := emit (inr (DeleteDocuments (documentClass c) [id] opts)) in
  await (adopt (deleteDocuments (documentClass c) [id] opts)).

(** The target a source names is not there: the pack, the world actor, or
    the scene, its token or the token's actor. *)
Definition target_missing (game : Game) (type : EntryType)
    (cfg : FoundryRegNameParsed) : bool :=
  match cfg with
  | src_comp_actor comp_id _ _ | src_comp comp_id =>
      absent (packs game !! comp_id)
  | src_comp_core => absent (packs game !! get_pack_id type)
  | src_game_actor actor_id => absent (coll_get (actors game) actor_id)
  | src_scene_token scene_id token_id =>
      match scenes game !! scene_id with
      | None => true
      | Some scene =>
          match tokens scene !! token_id with
          | None => true
          | Some token => absent (token_actor token)
          end
      end
  | src_game | src_scene _ => false
  end.

(** How the promise of an operation settles when the collection is not
    there: with the rejection of the resolver, or with a [TypeError] on
    [undefined]. *)
Definition failure_of (p : Promise (option Collection))
    : option JsError :=
  match p with
  | Rejected e => Some e
  | Fulfilled None => Some TypeError
  | Fulfilled (Some _) => None
  end.

(** The create data of one record. *)
Definition create_data (this : NuWrapper) (d : gmap string V) : CreateData :=
  {| cd_type := entry_type this;
     cd_name := prop d "name";
     cd_data := duplicate d |}.

End DbAbstractions.

(** ** stat.ts *)

Module Stat.

(** [s.split(".")] *)
Fixpoint split_dot_from (cur s : string) : list string :=
  match s with
  | EmptyString => [cur]
  | String c rest =>
      if Ascii.eqb c "."%char
      then cur :: split_dot_from EmptyString rest
      else split_dot_from (cur ++ String c EmptyString) rest
  end.

Definition split_dot (s : string) : list string := split_dot_from EmptyString s.

(** The number of "." in a string. *)
Fixpoint count_dots (s : string) : nat :=
  match s with
  | EmptyString => 0
  | String c rest =>
      if Ascii.eqb c "."%char then S (count_dots rest) else count_dots rest
  end.

(** A number in a template literal; the numbers of this flow (ranks,
    bonuses, accuracy totals) are integers. *)
Definition show_number (n : Z) : string :=
  DecimalString.NilZero.string_of_int (Z.to_int n).

Section Flows.

(** The collaborators of the flow: actors and items, the accuracy/difficulty
    data and its sliding HUD, the dice roller and the chat renderer. *)
Variables LancerActor LancerItem AccDiffData AccDiffObject Roll : Type.

(** [String.prototype.toUpperCase] of the runtime. *)
Variable toUpperCase : string -> string.

Variable actor_fromUuidSync : string + LancerActor -> Completion LancerActor.
Variable item_fromUuidSync : string + LancerItem -> Completion LancerItem.
Variable resolve_dotpath : LancerActor -> string -> option Z.
Variable item_name : LancerItem -> string.
Variable curr_rank : LancerItem -> Z.
Variable fromParams_actor : LancerActor -> string -> AccDiffData.
Variable fromParams_item : LancerItem -> string -> AccDiffData.
Variable openSlidingHud : string -> AccDiffData -> Promise AccDiffData.
Variable toObject : AccDiffData -> AccDiffObject.
Variable fromObject : AccDiffObject -> AccDiffData.
Variable base_total : AccDiffData -> Z.
Variable evaluate : string -> Promise Roll.
Variable getTooltip : Roll -> Promise string.
Variable system_id : string.

(** [LancerFlowState.StatRollData]; [bonus = None] is a bonus that is not
    there. *)
Record StatRollData := {
  sr_type : string;
  sr_title : string;
  sr_bonus : option Z;
  sr_acc_diff : AccDiffObject;
  sr_roll_str : string;
  sr_effect : option string
}.

Record TemplateData := {
  td_title : string;
  td_roll : Roll;
  td_roll_tooltip : string;
  td_effect : option string
}.

(** What the flow does to the outside: it opens the HUD, rolls dice, and
    renders a chat card. *)
Inductive Event :=
  | SlidingHudOpened (key : string)
  | RollEvaluated (formula : string)
  | ChatCardRendered (actor : LancerActor) (template : string)
      (data : TemplateData).

(** The events of the flow that roll dice or render a chat card. *)
Definition rolls_or_renders (ev : Event) : bool :=
  match ev with
  | RollEvaluated _ | ChatCardRendered _ _ _ => true
  | SlidingHudOpened _ => false
  end.

(** How the promise of a preparer settles once the HUD has. *)
Definition after_hud (p : Promise AccDiffData) : Promise unit :=
  match p with
  | Fulfilled _ => Fulfilled tt
  | Rejected e => Rejected e
  end.

(** A synchronous call inside an async function: a throw rejects. *)
Definition call {A} (c : Completion A) : Async Event A :=
  match c with
  | Normal a => ret a
  | Throw e => throw e
  end.

(** [renderTemplateStep(actor, template, templateData)] *)
Definition renderTemplateStep (actor : LancerActor) (template : string)
    (data : TemplateData) : Async Event unit :=
  emit (ChatCardRendered actor template data).

(** [x || 0] on an optional number. *)
Definition or_zero (x : option Z) : Z :=
  match x with
  | Some n => if Z.eqb n 0 then 0%Z else n
  | None => 0%Z
  end.

(** The statements of [rollStatMacro] that follow its guard. *)
Definition roll_and_render (actor : LancerActor) (data : StatRollData)
    : Async Event (option unit) :=
  let acc_diff := fromObject (sr_acc_diff data) in
  let acc_str :=
    if negb (Z.eqb (base_total acc_diff) 0)
    then " + " ++ show_number (base_total acc_diff) ++ "d6kh1"
    else EmptyString in
  let formula := "1d20+" ++ show_number (or_zero (sr_bonus data)) ++ acc_str in
  let* _ := emit (RollEvaluated formula) in
  let* roll := await (evaluate formula) in
  let* roll_tt := await (getTooltip roll) in
  let templateData :=
    {| td_title := sr_title data;
       td_roll := roll;
       td_roll_tooltip := roll_tt;
       td_effect :=
         if truthy_opt_string (sr_effect data) then sr_effect data else None |} in
  let template :=
    "systems/" ++ system_id ++ "/templates/chat/stat-roll-card.hbs" in
  let* r := renderTemplateStep actor template templateData in
  ret (Some r).

(** [rollStatMacro(data)]; the result [None] is [undefined]. *)
Definition rollStatMacro (data : StatRollData) : Async Event (option unit) :=
  (* let actor;   declared, and never assigned *)
  let actor : option LancerActor := None in
  match actor with
  | None => ret None                      (* if (!actor) return; *)
  | Some actor => roll_and_render actor data
  end.

(** [prepareStatMacro(actor, statKey)] *)
Definition prepareStatMacro (actor : string + LancerActor) (statKey : string)
    : Async Event unit :=
  let* actor := call (actor_fromUuidSync actor) in
  let statPath := split_dot statKey in
  let bonus := resolve_dotpath actor statKey in
  let acc_diff :=
    fromParams_actor actor (toUpperCase (List.last statPath EmptyString)) in
  let* _ := emit (SlidingHudOpened "hase") in
  let* acc_diff := await (openSlidingHud "hase" acc_diff) in
  let mData :=
    {| sr_type := "stat";
       sr_title := toUpperCase (List.last statPath EmptyString);
       sr_bonus := bonus;
       sr_acc_diff := toObject acc_diff;
       sr_roll_str := "1d20";
       sr_effect := None |} in
  (* rollStatMacro(mData); without await *)
  detach (rollStatMacro mData).

(** [prepareSkillMacro(item)] *)
Definition prepareSkillMacro (item : string + LancerItem) : Async Event unit :=
  let* item := call (item_fromUuidSync item) in
  let acc_diff := fromParams_item item (item_name item) in
  let* _ := emit (SlidingHudOpened "hase") in
  let* acc_diff := await (openSlidingHud "hase" acc_diff) in
  let skillData :=
    {| sr_type := "stat";
       sr_title := item_name item;
       sr_bonus := Some (curr_rank item * 2)%Z;
       sr_acc_diff := toObject acc_diff;
       sr_roll_str := "1d20";
       sr_effect := None |} in
  let* _ := rollStatMacro skillData in
  ret tt.

End Flows.
End Stat.

(** ** A concrete world, for running the definitions *)

(** A value domain closed under what the samples need: [undefined], [null],
    strings, and the native functions that plain objects inherit (a
    function is known by the name of the function object and converts to
    its source text). [==] on them: [null == undefined]; a string [==] the
    same string; a function [==] the same function, and a string that is
    its source text. *)
Inductive JsVal :=
  | JUndefined
  | JNull
  | JString (s : string)
  | JFunction (name text : string).

Definition JsVal_loose_eq (a b : JsVal) : bool :=
  match a, b with
  | JString s, JString t => String.eqb s t
  | JFunction f _, JFunction g _ => String.eqb f g
  | JFunction _ t, JString s | JString s, JFunction _ t => String.eqb t s
  | JString _, _ | _, JString _ => false
  | JFunction _ _, _ | _, JFunction _ _ => false
  | _, _ => true
  end.

Definition native (name : string) : JsVal :=
  JFunction name ("function " ++ name ++ "() { [native code] }").

(** The methods of [Object.prototype]. *)
Definition JsVal_object_prototype : gmap string JsVal :=
  list_to_map
    [("constructor", native "Object");
     ("hasOwnProperty", native "hasOwnProperty");
     ("isPrototypeOf", native "isPrototypeOf");
     ("propertyIsEnumerable", native "propertyIsEnumerable");
     ("toLocaleString", native "toLocaleString");
     ("toString", native "toString");
     ("valueOf", native "valueOf")].

(** What JSON keeps of the fields of an object: not the [undefined] ones,
    and no function. *)
Definition json_keeps (v : JsVal) : bool :=
  match v with
  | JUndefined | JFunction _ _ => false
  | JNull | JString _ => true
  end.

Definition JsVal_duplicate (d : gmap string JsVal) : gmap string JsVal :=
  filter (fun kv => json_keeps kv.2 = true) d.

(** No value of this domain is a plain object, so the host's merge step
    always takes the new value. *)
#[global] Instance JsVal_any : JsAny JsVal :=
  {| undefined := JUndefined;
     of_string := JString;
     loose_eq := JsVal_loose_eq;
     object_prototype := JsVal_object_prototype;
     merge_update := fun _ v => v;
     duplicate := JsVal_duplicate |}.

(** An entry is saved with its name next to its other fields. *)
Definition sample_save (e : @LiveEntry JsVal) : gmap string JsVal :=
  <["name" := JString (Name e)]> (own_fields e).

Definition sample_entry (name : string) (top_name : option string)
    (orig : string) : @LiveEntry JsVal :=
  {| Name := name;
     RegistryID := "reg-1";
     Flags := {| top_level_data :=
                   {| tl_name := top_name; tl_id := None; tl_data := None;
                      tl_rest := ∅ |};
                 orig_doc_name := orig |};
     own_fields := ∅ |}.

(** An entry whose overrides carry an [_id] and a [data] of their own. *)
Definition overridden_entry : @LiveEntry JsVal :=
  {| Name := "Y";
     RegistryID := "reg-1";
     Flags := {| top_level_data :=
                   {| tl_name := Some "X"; tl_id := Some "doc-7";
                      tl_data := Some {[ "hp" := JString "5" ]};
                      tl_rest := ∅ |};
                 orig_doc_name := "Y" |};
     own_fields := {[ "hp" := JString "3" ]} |}.

(** Two items owned by an actor, the actor in a compendium, in the world
    and behind a token. *)
Definition sample_item (id type : string) (fields : gmap string JsVal)
    : @Document JsVal :=
  {| doc_id := id; doc_type := type; doc_data := fields;
     doc_source := fields; doc_items := None |}.

Definition world_collection (cls : DocumentClass) (docs : list Document)
    : @Collection JsVal :=
  {| contents := docs; parent := None; documentClass := cls;
     getDocument := fun _ => None; getDocuments := fun _ => [] |}.

Definition embedded_items (owner : string) (docs : list Document)
    : @Collection JsVal :=
  {| contents := docs; parent := Some owner; documentClass := ItemClass;
     getDocument := fun _ => None; getDocuments := fun _ => [] |}.

Definition rifle : @Document JsVal :=
  sample_item "item-1" "mech_weapon"
    {[ "name" := JString "Rifle"; "size" := JString "Main" ]}.

Definition sword : @Document JsVal :=
  sample_item "item-2" "mech_weapon"
    {[ "name" := JString "Sword"; "size" := JString "Heavy" ]}.

Definition shield : @Document JsVal :=
  sample_item "item-3" "mech_system" {[ "name" := JString "Shield" ]}.

Definition sample_actor : @Document JsVal :=
  {| doc_id := "actor-1"; doc_type := "mech";
     doc_data := {[ "name" := JString "Everest" ]};
     doc_source := {[ "name" := JString "Everest" ]};
     doc_items := Some (embedded_items "actor-1" [rifle; sword; shield]) |}.

Definition sample_pack : @Collection JsVal :=
  {| contents := []; parent := None; documentClass := ActorClass;
     getDocument :=
       fun id => if String.eqb id "actor-1" then Some sample_actor else None;
     getDocuments := fun _ => [sample_actor] |}.

Definition sample_scene : @Scene JsVal :=
  {| tokens := {[ "token-1" := {| token_actor := Some sample_actor |} ]} |}.

Definition sample_game : @Game JsVal :=
  {| packs := {[ "world.mech" := sample_pack ]};
     actors := world_collection ActorClass [sample_actor];
     items := world_collection ItemClass [rifle; sword; shield];
     scenes := {[ "scene-1" := sample_scene ]} |}.

Definition sample_get_pack_id (t : string) : string := "world." ++ t.

Definition sample_is_actor_type (t : string) : bool :=
  String.eqb t "mech" || String.eqb t "pilot" || String.eqb t "npc".

(** A host whose [createDocuments] answers with a promise, and one that
    answers with the documents themselves; both create one document per
    record. *)
Definition created (data : list (@CreateData JsVal)) : list Document :=
  imap (fun i d =>
          {| doc_id := "new-" ++ Stat.show_number (Z.of_nat i);
             doc_type := cd_type d;
             doc_data := cd_data d; doc_source := cd_data d;
             doc_items := None |}) data.

Definition async_host (cls : DocumentClass) (data : list (@CreateData JsVal))
    (ctx : ModificationContext) : HostReturn (list Document) :=
  Pending (Fulfilled (created data)).

Definition sync_host (cls : DocumentClass) (data : list (@CreateData JsVal))
    (ctx : ModificationContext) : HostReturn (list Document) :=
  Plain (created data).

(** The wrapper over the items of the token "token-1" of "scene-1", and the
    wrapper over the world's items. *)
Definition token_wrapper : @NuWrapper JsVal :=
  {| entry_type := "mech_weapon";
     collection :=
       Fulfilled (Some (embedded_items "actor-1" [rifle; sword; shield]));
     scene := None;
     pack := None |}.

Definition items_wrapper : @NuWrapper JsVal :=
  {| entry_type := "mech_weapon";
     collection :=
       Fulfilled (Some (world_collection ItemClass [rifle; sword; shield]));
     scene := None;
     pack := None |}.

Definition blade : gmap string JsVal := {[ "name" := JString "Blade" ]}.

Definition blade_call : @Event JsVal :=
  CreateDocuments ItemClass
    [{| cd_type := "mech_weapon"; cd_name := JString "Blade";
        cd_data := blade |}]
    {| ctx_parent := Some "actor-1"; ctx_pack := None |}.

(** Hosts for [updateDocuments] and [deleteDocuments] that answer with a
    promise of no document. *)
Definition update_host (cls : DocumentClass) (blobs : list (@DocumentBlob JsVal))
    (ctx : ModificationContext) : HostReturn (list (@Document JsVal)) :=
  Pending (Fulfilled []).

Definition delete_host (cls : DocumentClass) (ids : list string)
    (ctx : ModificationContext) : HostReturn (list (@Document JsVal)) :=
  Pending (Fulfilled []).


(** ** The document blob builder *)

Section BlobBuilder.
Context {V : Type} `{JsAny V} (save : @LiveEntry V -> gmap string V).

(** The name the entry is left with. *)
Lemma as_document_blob_Name (ent : LiveEntry) :
  Name (fst (as_document_blob save ent)) =
    match tl_name (top_level_data (Flags ent)) with
    | Some n =>
        if truthy_string n && negb (String.eqb n (orig_doc_name (Flags ent)))
        then n else Name ent
    | None => Name ent
    end.
Proof.
  unfold as_document_blob; simpl.
  destruct (tl_name (top_level_data (Flags ent))) as [n|]; simpl.
  - destruct (truthy_string n && negb (String.eqb n _)); simpl.
    + reflexivity.
    + destruct (_ && _); reflexivity.
  - destruct (_ && _); reflexivity.
Qed.

(** The function never touches [ent.Flags]. *)
Lemma as_document_blob_Flags (ent : LiveEntry) :
  Flags (fst (as_document_blob save ent)) = Flags ent.
Proof.
  unfold as_document_blob; simpl.
  repeat (destruct (_ && _); simpl); reflexivity.
Qed.

(** The top-level name of the blob is the override's, whatever the entry's
    name. *)
Lemma as_document_blob_blob_name (ent : LiveEntry) :
  blob_name (snd (as_document_blob save ent)) =
    tl_name (top_level_data (Flags ent)).
Proof.
  unfold as_document_blob, mergeObject; simpl.
  repeat (destruct (_ && _); simpl); reflexivity.
Qed.

(** When only the entry's name changed (case B), the entry keeps its name,
    and the top-level override and the blob's name stay at the name the
    document was loaded with. *)
Lemma as_document_blob_entry_name_changed (ent : LiveEntry) :
  tl_name (top_level_data (Flags ent)) = Some (orig_doc_name (Flags ent)) ->
  Name ent <> orig_doc_name (Flags ent) ->
  fst (as_document_blob save ent) = ent
  /\ blob_name (snd (as_document_blob save ent))
       = Some (orig_doc_name (Flags ent))
  /\ (tl_data (top_level_data (Flags ent)) = None ->
      blob_data (snd (as_document_blob save ent)) = save ent).
Proof.
  intros Htl Hne.
  unfold as_document_blob, mergeObject; simpl.
  rewrite Htl; simpl.
  rewrite String.eqb_refl, andb_false_r.
  destruct (_ && _); simpl; (split; [reflexivity|]);
    (split; [assumption || reflexivity|]); intros ->; reflexivity.
Qed.

(** C9: when [top_level_data.name] is absent or empty, the entry keeps its
    own name, whatever the name the document was loaded with; and whenever
    the call changes the entry's name, the override's name is a non-empty
    string [n], different from the loaded name, and it is the new name. *)
Theorem as_document_blob_empty_override_keeps_name (ent : LiveEntry) :
  tl_name (top_level_data (Flags ent)) = None
    \/ tl_name (top_level_data (Flags ent)) = Some EmptyString ->
  Name (fst (as_document_blob save ent)) = Name ent
  /\ (forall ent0 : LiveEntry,
        Name (fst (as_document_blob save ent0)) <> Name ent0 ->
        exists n, tl_name (top_level_data (Flags ent0)) = Some n
                  /\ n <> EmptyString
                  /\ n <> orig_doc_name (Flags ent0)
                  /\ Name (fst (as_document_blob save ent0)) = n).
Proof.
  intros Hfalsy. split.
  - rewrite as_document_blob_Name.
    destruct Hfalsy as [-> | ->]; reflexivity.
  - intros ent0. rewrite as_document_blob_Name.
    destruct (tl_name (top_level_data (Flags ent0))) as [n|]; [|congruence].
    unfold truthy_string.
    destruct (String.eqb_spec n EmptyString) as [->|Hn]; simpl; [congruence|].
    destruct (String.eqb_spec n (orig_doc_name (Flags ent0))) as [->|Ho];
      simpl; [congruence|].
    intros _. exists n. auto.
Qed.

End BlobBuilder.

(** The empty override against a loaded name "Y" and an entry renamed to
    "Z". *)
Lemma as_document_blob_empty_override_keeps_name_witness :
  Name (fst (as_document_blob sample_save
               (sample_entry "Z" (Some EmptyString) "Y"))) = "Z".
Proof.
  exact (proj1 (as_document_blob_empty_override_keeps_name sample_save
                  (sample_entry "Z" (Some EmptyString) "Y")
                  (or_intror eq_refl))).
Defined.

(** C1: case B on the code. With [top_level_data.name] and the loaded name
    both "Y" and the entry renamed to "Z", the blob's top-level name is "Y"
    and the override is still "Y" after the call: "Z" only shows in the
    nested data. *)
Theorem as_document_blob_case_B_keeps_stale_name :
  let ent := sample_entry "Z" (Some "Y") "Y" in
  let r := as_document_blob sample_save ent in
  blob_name (snd r) = Some "Y"
  /\ tl_name (top_level_data (Flags (fst r))) = Some "Y"
  /\ blob_name (snd r) <> Some "Z"
  /\ tl_name (top_level_data (Flags (fst r))) <> Some "Z"
  /\ blob_data (snd r) !! "name" = Some (JString "Z").
Proof.
  simpl. repeat split; try discriminate; reflexivity.
Qed.

(** ** The collection resolver *)

Section Resolver.
Context {V : Type}.
Variable get_pack_id : EntryType -> string.
Variable is_actor_type : EntryType -> bool.
Variable game : @Game V.

Local Abbreviation lookup := (lookup_collection get_pack_id is_actor_type game).

(** A compendium that is not registered: the promise rejects, naming the
    pack. *)
Lemma lookup_collection_comp_absent (type : EntryType) (comp_id : string) :
  packs game !! comp_id = None ->
  lookup type (src_comp comp_id)
    = settled (Rejected (Error ("Pack " ++ comp_id ++ " does not exist"))).
Proof. intros Hp. simpl. rewrite Hp. reflexivity. Qed.

Lemma lookup_collection_comp_core_absent (type : EntryType) :
  packs game !! get_pack_id type = None ->
  lookup type src_comp_core
    = settled (Rejected (Error ("Core pack " ++ get_pack_id type
                                  ++ " does not exist"))).
Proof. intros Hp. simpl. rewrite Hp. reflexivity. Qed.

(** A compendium that is registered: the promise fulfils with [undefined],
    whatever the pack. *)
Lemma lookup_collection_comp_registered (type : EntryType) (comp_id : string)
    (p : Collection) :
  packs game !! comp_id = Some p ->
  lookup type (src_comp comp_id) = settled (Fulfilled None).
Proof. intros Hp. simpl. rewrite Hp. reflexivity. Qed.

Lemma lookup_collection_comp_core_registered (type : EntryType)
    (p : Collection) :
  packs game !! get_pack_id type = Some p ->
  lookup type src_comp_core = settled (Fulfilled None).
Proof. intros Hp. simpl. rewrite Hp. reflexivity. Qed.

(** An actor of a compendium: without the pack the promise rejects. *)
Lemma lookup_collection_comp_actor_absent (type : EntryType)
    (comp_id token_id actor_id : string) :
  packs game !! comp_id = None ->
  lookup type (src_comp_actor comp_id token_id actor_id)
    = settled (Rejected (Error ("Couldn't find pack " ++ comp_id))).
Proof. intros Hp. simpl. rewrite Hp. reflexivity. Qed.

(** With the pack, the returned promise fulfils with [undefined] at once;
    the fetch of the actor and what follows it live in the detached
    chain. *)
Lemma lookup_collection_comp_actor_registered (type : EntryType)
    (comp_id token_id actor_id : string) (p : Collection) :
  packs game !! comp_id = Some p ->
  returned (lookup type (src_comp_actor comp_id token_id actor_id))
    = Fulfilled None
  /\ detached (lookup type (src_comp_actor comp_id token_id actor_id))
     = Some match getDocument p token_id with
            | Some actor => Fulfilled (doc_items actor)
            | None =>
                Rejected (Error ("Pack " ++ comp_id
                  ++ " didn't have actor with id " ++ actor_id))
            end.
Proof. intros Hp. simpl. rewrite Hp. split; reflexivity. Qed.

(** The other sources hand their collection back. *)
Lemma lookup_collection_game_actor (type : EntryType) (actor_id : string)
    (actor : Document) :
  coll_get (actors game) actor_id = Some actor ->
  lookup type (src_game_actor actor_id) = settled (Fulfilled (doc_items actor)).
Proof. intros Ha. simpl. rewrite Ha. reflexivity. Qed.

Lemma lookup_collection_scene (type : EntryType) (scene_id : string) :
  lookup type (src_scene scene_id) = settled (Fulfilled (Some (actors game))).
Proof. reflexivity. Qed.

End Resolver.

(** C2: the resolver on a registered compendium. The pack "world.mech" is
    registered, by its id and as the core pack of "mech"; the promise of
    either source fulfils with [undefined], not with the pack. *)
Theorem lookup_collection_comp_returns_undefined :
  packs sample_game !! "world.mech" = Some sample_pack
  /\ sample_get_pack_id "mech" = "world.mech"
  /\ returned (lookup_collection sample_get_pack_id sample_is_actor_type
                 sample_game "mech" (src_comp "world.mech"))
     = Fulfilled None
  /\ returned (lookup_collection sample_get_pack_id sample_is_actor_type
                 sample_game "mech" src_comp_core)
     = Fulfilled None
  /\ Fulfilled (@None (@Collection JsVal)) <> Fulfilled (Some sample_pack).
Proof.
  repeat split; try discriminate; vm_compute; reflexivity.
Qed.

(** C3: the resolver on an actor of a registered compendium. With the actor
    in the pack, the returned promise fulfils with [undefined] while the
    actor's items only reach the detached chain; with no such actor, the
    returned promise still fulfils with [undefined], and the rejection stays
    in the detached chain. *)
Theorem lookup_collection_comp_actor_returns_undefined :
  let found :=
    lookup_collection sample_get_pack_id sample_is_actor_type sample_game
      "mech_weapon" (src_comp_actor "world.mech" "actor-1" "actor-1") in
  let missing :=
    lookup_collection sample_get_pack_id sample_is_actor_type sample_game
      "mech_weapon" (src_comp_actor "world.mech" "actor-9" "actor-9") in
  getDocument sample_pack "actor-1" = Some sample_actor
  /\ returned found = Fulfilled None
  /\ detached found = Some (Fulfilled (doc_items sample_actor))
  /\ returned found <> Fulfilled (doc_items sample_actor)
  /\ getDocument sample_pack "actor-9" = None
  /\ returned missing = Fulfilled None
  /\ detached missing
     = Some (Rejected (Error
         "Pack world.mech didn't have actor with id actor-9")).
Proof.
  repeat split; try (vm_compute; discriminate); vm_compute; reflexivity.
Qed.

(** ** The wrapper's constructor *)

Section Constructor.
Context {V : Type}.
Variable get_pack_id : EntryType -> string.
Variable is_actor_type : EntryType -> bool.
Variable game : @Game V.

Local Abbreviation construct := (NuWrapper_new get_pack_id is_actor_type game).

(** The constructor only throws on a bare scene source whose scene is not
    registered. *)
Lemma NuWrapper_new_total (type : EntryType) (cfg : FoundryRegNameParsed) :
  (forall scene_id, cfg = src_scene scene_id ->
                    is_Some (scenes game !! scene_id)) ->
  exists w, construct type cfg = Normal w.
Proof.
  intros Hs. unfold NuWrapper_new.
  destruct cfg; simpl; eauto.
  destruct (Hs scene_id eq_refl) as [s ->]. eauto.
Qed.

(** C8: a constructed wrapper never has both [scene] and [pack] set: [pack]
    is non-null only for the comp, comp_actor and comp_core sources, and
    [scene] is non-null only for the bare scene source. *)
Theorem NuWrapper_new_scene_pack_exclusive (type : EntryType)
    (cfg : FoundryRegNameParsed) (w : NuWrapper) :
  construct type cfg = Normal w ->
  (pack w <> None -> pack_source cfg = true)
  /\ (scene w <> None -> bare_scene_source cfg = true)
  /\ ~ (scene w <> None /\ pack w <> None).
Proof.
  unfold NuWrapper_new.
  destruct cfg; simpl; try destruct (scenes game !! scene_id);
    intros [= <-]; simpl; repeat split; try congruence;
    intros [? ?]; congruence.
Qed.

(** The scene of a wrapper over a bare scene source is the registered one. *)
Lemma NuWrapper_new_scene (type : EntryType) (scene_id : string)
    (w : NuWrapper) :
  construct type (src_scene scene_id) = Normal w ->
  exists s, scenes game !! scene_id = Some s /\ scene w = Some s.
Proof.
  unfold NuWrapper_new; simpl.
  destruct (scenes game !! scene_id) as [s|]; intros [= <-]; simpl; eauto.
Qed.

(** Every other source leaves [scene] null. *)
Lemma NuWrapper_new_no_scene (type : EntryType) (cfg : FoundryRegNameParsed)
    (w : NuWrapper) :
  bare_scene_source cfg = false ->
  construct type cfg = Normal w ->
  scene w = None.
Proof.
  unfold NuWrapper_new.
  destruct cfg; simpl; try discriminate; intros _ [= <-]; reflexivity.
Qed.

End Constructor.

(** A wrapper over the bare scene "scene-1": its scene is set, its pack is
    not. *)
Lemma NuWrapper_new_scene_pack_exclusive_witness :
  exists w : @NuWrapper JsVal,
    NuWrapper_new sample_get_pack_id sample_is_actor_type sample_game
      "npc" (src_scene "scene-1") = Normal w
    /\ (pack w <> None -> pack_source (src_scene "scene-1") = true)
    /\ (scene w <> None -> bare_scene_source (src_scene "scene-1") = true)
    /\ ~ (scene w <> None /\ pack w <> None).
Proof.
  eexists. split.
  - reflexivity.
  - apply (NuWrapper_new_scene_pack_exclusive sample_get_pack_id
             sample_is_actor_type sample_game "npc" (src_scene "scene-1")).
    reflexivity.
Defined.

(** ** The wrapper's operations *)

Section Operations.
Context {V : Type} `{JsAny V}.
Variable get_pack_id : EntryType -> string.
Variable is_actor_type : EntryType -> bool.
Variable createDocuments :
  DocumentClass -> list (@CreateData V) -> ModificationContext ->
  HostReturn (list (@Document V)).

(** With a scene set, [create_many] logs and returns the empty list. *)
Lemma create_many_scene (w : @NuWrapper V) (reg_data : list (gmap string V)) :
  scene w <> None ->
  create_many createDocuments w reg_data
    = ([ConsoleError "Creating tokens via registry is not yet supported"],
       Fulfilled []).
Proof.
  intros Hs. unfold create_many.
  destruct (scene w); [reflexivity | congruence].
Qed.

(** Without a scene and with a collection, [create_many] issues exactly one
    create call, for the document class of the collection. *)
Lemma create_many_no_scene (w : @NuWrapper V) (c : @Collection V)
    (reg_data : list (gmap string V)) :
  scene w = None ->
  collection w = Fulfilled (Some c) ->
  exists data ctx,
    trace (create_many createDocuments w reg_data)
      = [CreateDocuments (documentClass c) data ctx]
    /\ length data = length reg_data
    /\ ctx_parent ctx = parent c
    /\ ctx_pack ctx = pack w.
Proof.
  intros Hs Hc. unfold create_many, non_scene_opts. rewrite Hs, Hc. simpl.
  destruct (parent c) eqn:Hp; simpl;
    destruct (createDocuments _ _ _); simpl;
    do 2 eexists; (split; [reflexivity|]);
    rewrite length_map; auto.
Qed.

(** C4, as the code has it: for every wrapper constructed over the bare
    scene source and every list of records, [create_many] fulfils with the
    empty list, its only effect is one message on the console's error
    channel, and no create call is issued. *)
Theorem create_many_bare_scene (game : Game) (type : EntryType)
    (scene_id : string) (w : @NuWrapper V) (reg_data : list (gmap string V)) :
  NuWrapper_new get_pack_id is_actor_type game type (src_scene scene_id)
    = Normal w ->
  outcome (create_many createDocuments w reg_data) = Fulfilled []
  /\ trace (create_many createDocuments w reg_data)
     = [ConsoleError "Creating tokens via registry is not yet supported"]
  /\ List.filter is_create (trace (create_many createDocuments w reg_data))
     = [].
Proof.
  intros Hw.
  destruct (NuWrapper_new_scene _ _ _ _ _ _ Hw) as (s & _ & Hs).
  rewrite create_many_scene by congruence.
  repeat split.
Qed.

(** [get] on a wrapper whose collection is [undefined] (the wrappers over a
    registered compendium are such) rejects with a [TypeError]. *)
Lemma get_undefined_collection (w : @NuWrapper V) (id : string) :
  collection w = Fulfilled None ->
  get w id = ([], Rejected TypeError).
Proof.
  intros Hc. unfold get. rewrite Hc.
  destruct (truthy_opt_string (pack w)); reflexivity.
Qed.

(** [get] on a wrapper whose resolution failed rejects with that failure. *)
Lemma get_rejected_collection (w : @NuWrapper V) (id : string) (e : JsError) :
  collection w = Rejected e ->
  get w id = ([], Rejected e).
Proof. intros Hc. unfold get. rewrite Hc. reflexivity. Qed.

(** C5: on a wrapper whose collection is resolved, [get] has no effect and
    never rejects; it returns null when there is no document under the id
    and when the document's type is not the wrapper's entry type; and a
    document of the wrapper's type is returned in a result of that type. *)
Theorem get_null_or_typed (w : @NuWrapper V) (c : @Collection V) (id : string) :
  collection w = Fulfilled (Some c) ->
  (fetched w c id = None -> get w id = ([], Fulfilled None))
  /\ (forall d, fetched w c id = Some d -> doc_type d <> entry_type w ->
                get w id = ([], Fulfilled None))
  /\ (forall d, fetched w c id = Some d -> doc_type d = entry_type w ->
                exists r, get w id = ([], Fulfilled (Some r))
                          /\ gr_type r = entry_type w
                          /\ gr_entity r = d
                          /\ gr_id r = id
                          /\ gr_data r = Some (doc_data d))
  /\ (exists r, get w id = ([], Fulfilled r)).
Proof.
  intros Hc.
  assert (Hget : get w id =
            match fetched w c id with
            | Some fi =>
                if String.eqb (doc_type fi) (entry_type w)
                then ([], Fulfilled (Some {| gr_data := Some (doc_data fi);
                                             gr_entity := fi;
                                             gr_id := id;
                                             gr_type := entry_type w |}))
                else ([], Fulfilled None)
            | None => ([], Fulfilled None)
            end).
  { unfold get, fetched. rewrite Hc.
    destruct (truthy_opt_string (pack w)); simpl.
    - destruct (getDocument c id) as [fi|]; simpl; [|reflexivity].
      destruct (String.eqb _ _); reflexivity.
    - destruct (coll_get c id) as [fi|]; simpl; [|reflexivity].
      destruct (String.eqb _ _); reflexivity. }
  rewrite Hget. repeat split.
  - intros ->. reflexivity.
  - intros d -> Hty.
    destruct (String.eqb_spec (doc_type d) (entry_type w)); congruence.
  - intros d -> Hty.
    destruct (String.eqb_spec (doc_type d) (entry_type w)); [|congruence].
    eexists. split; [reflexivity|]. auto.
  - destruct (fetched w c id) as [fi|]; [|eauto].
    destruct (String.eqb _ _); eauto.
Qed.

End Operations.

(** ** Queries *)

Section Queries.
Context {V : Type} `{JsAny V}.

(** The loop accepts a list of entries when the document agrees with each
    of them. *)
Lemma check_entries_Forall (d : @Document V) (entries : list (string * V)) :
  check_entries d entries = true
  <-> Forall (uncurry (agrees d)) entries.
Proof.
  induction entries as [|[k v] rest IH]; simpl.
  - split; [constructor | reflexivity].
  - unfold loose_neq.
    destruct (loose_eq (prop (doc_source d) k) v) eqn:Hkv; simpl.
    + rewrite IH. split.
      * intros Hrest. constructor; assumption.
      * intros Hall. inversion Hall; assumption.
    + split; [discriminate|].
      intros Hall. inversion Hall as [|? ? Hhd _].
      unfold agrees in Hhd; simpl in Hhd. congruence.
Qed.

(** The filter callback decides [satisfies]. *)
Lemma query_filter_satisfies (w : @NuWrapper V) (query_obj : gmap string V)
    (d : @Document V) :
  query_filter w query_obj d = true <-> satisfies w query_obj d.
Proof.
  unfold query_filter, satisfies.
  destruct (String.eqb_spec (doc_type d) (entry_type w)) as [Hty|Hty]; simpl.
  - rewrite check_entries_Forall.
    rewrite <- (map_Forall_to_list (agrees d)).
    unfold map_Forall. split.
    + intros Hall. split; [assumption|].
      intros k v Hkv. apply (Hall k v Hkv).
    + intros [_ Hall]. exact Hall.
  - split; [discriminate | intros [? _]; contradiction].
Qed.

Lemma filter_query_filter (w : @NuWrapper V) (query_obj : gmap string V)
    (docs : list (@Document V)) :
  List.filter (fun doc => query_filter w query_obj doc) docs
    = filter (satisfies w query_obj) docs.
Proof.
  induction docs as [|d docs IH]; [reflexivity|].
  simpl. rewrite filter_cons, IH.
  destruct (decide (satisfies w query_obj d)) as [Hs|Hs].
  - apply query_filter_satisfies in Hs. rewrite Hs. reflexivity.
  - destruct (query_filter w query_obj d) eqn:Hq; [|reflexivity].
    apply query_filter_satisfies in Hq. contradiction.
Qed.





(** A pack-backed wrapper hands the criteria, with the entry type under
    [type], to the backend's filtered fetch. *)
Lemma query_pack (w : @NuWrapper V) (c : @Collection V)
    (query_obj : gmap string V) :
  truthy_opt_string (pack w) = true ->
  collection w = Fulfilled (Some c) ->
  query w query_obj
    = ([], Fulfilled (map (to_GetResult w)
             (getDocuments c
                (<["type" := of_string (entry_type w)]> query_obj)))).
Proof. intros Hp Hc. unfold query. rewrite Hc, Hp. reflexivity. Qed.

(** Every document answers the empty criteria as soon as its type fits. *)
Lemma satisfies_empty (w : @NuWrapper V) (d : @Document V) :
  satisfies w ∅ d <-> doc_type d = entry_type w.
Proof.
  unfold satisfies. split; [intros [? _]; assumption|].
  intros Hty. split; [assumption|].
  intros k v Hkv. rewrite lookup_empty in Hkv. discriminate.
Qed.

(** C7: [enumerate] is [query] on the empty criteria: the same events and
    the same settled promise, for every wrapper. *)
Theorem enumerate_is_query_empty (w : @NuWrapper V) :
  enumerate w = query w ∅.
Proof.
  unfold enumerate.
  reflexivity.
Qed.

End Queries.

(** ** The operations on the sample world *)

(** C4, as the claim has it, fails on a token of a scene: the source is
    rooted in a scene, the wrapper has no scene set, and [create_many] on
    one well-formed record issues a create call on the token's actor,
    whether the host answers with a promise or with the documents; its
    promise does not fulfil with the empty list. *)
Lemma create_many_scene_token_creates :
  scene_rooted (src_scene_token "scene-1" "token-1") = true
  /\ NuWrapper_new sample_get_pack_id sample_is_actor_type sample_game
       "mech_weapon" (src_scene_token "scene-1" "token-1")
     = Normal token_wrapper
  /\ trace (create_many async_host token_wrapper [blade]) = [blade_call]
  /\ outcome (create_many async_host token_wrapper [blade])
     = Rejected TypeError
  /\ trace (create_many sync_host token_wrapper [blade]) = [blade_call]
  /\ outcome (create_many sync_host token_wrapper [blade])
     = Fulfilled [{| gr_data := Some blade;
                     gr_entity :=
                       {| doc_id := "new-0"; doc_type := "mech_weapon";
                          doc_data := blade; doc_source := blade;
                          doc_items := None |};
                     gr_id := "new-0";
                     gr_type := "mech_weapon" |}]
  /\ List.filter is_create
       (trace (create_many async_host token_wrapper [blade])) <> [].
Proof.
  repeat split; try reflexivity. discriminate.
Qed.

(** The bare scene "scene-1": nothing is created. *)
Lemma create_many_bare_scene_witness :
  exists w : @NuWrapper JsVal,
    NuWrapper_new sample_get_pack_id sample_is_actor_type sample_game
      "npc" (src_scene "scene-1") = Normal w
    /\ outcome (create_many async_host w [blade]) = Fulfilled []
    /\ trace (create_many async_host w [blade])
       = [ConsoleError "Creating tokens via registry is not yet supported"]
    /\ List.filter is_create (trace (create_many async_host w [blade])) = [].
Proof.
  eexists. split.
  - reflexivity.
  - apply (create_many_bare_scene sample_get_pack_id sample_is_actor_type
             async_host sample_game "npc" "scene-1").
    reflexivity.
Defined.

(** [get] on the world's items, as a wrapper of weapons: an id that is not
    there, the id of a system, and the id of a weapon. *)
Lemma get_null_or_typed_witness :
  get items_wrapper "item-9" = ([], Fulfilled None)
  /\ get items_wrapper "item-3" = ([], Fulfilled None)
  /\ exists r, get items_wrapper "item-1" = ([], Fulfilled (Some r))
               /\ gr_type r = "mech_weapon"
               /\ gr_entity r = rifle.
Proof.
  pose (c := world_collection ItemClass [rifle; sword; shield]).
  split; [|split].
  - apply (proj1 (get_null_or_typed items_wrapper c "item-9" eq_refl)).
    reflexivity.
  - apply (proj1 (proj2 (get_null_or_typed items_wrapper c "item-3" eq_refl))
             shield); [reflexivity | discriminate].
  - destruct (proj1 (proj2 (proj2
        (get_null_or_typed items_wrapper c "item-1" eq_refl)))
        rifle eq_refl eq_refl) as (r & Hr & Hty & Hent & _).
    exists r. auto.
Defined.



(** ** The stat flow *)

Section StatFlow.
Variables LancerActor LancerItem AccDiffData AccDiffObject Roll : Type.
Variable toUpperCase : string -> string.
Variable actor_fromUuidSync : string + LancerActor -> Completion LancerActor.
Variable item_fromUuidSync : string + LancerItem -> Completion LancerItem.
Variable resolve_dotpath : LancerActor -> string -> option Z.
Variable item_name : LancerItem -> string.
Variable curr_rank : LancerItem -> Z.
Variable fromParams_actor : LancerActor -> string -> AccDiffData.
Variable fromParams_item : LancerItem -> string -> AccDiffData.
Variable openSlidingHud : string -> AccDiffData -> Promise AccDiffData.
Variable toObject : AccDiffData -> AccDiffObject.
Variable fromObject : AccDiffObject -> AccDiffData.
Variable base_total : AccDiffData -> Z.
Variable evaluate : string -> Promise Roll.
Variable getTooltip : Roll -> Promise string.
Variable system_id : string.

Local Abbreviation Ev := (Stat.Event LancerActor Roll).
Local Abbreviation Data := (Stat.StatRollData AccDiffObject).

Local Abbreviation rollStat :=
  (Stat.rollStatMacro LancerActor AccDiffData AccDiffObject Roll
     fromObject base_total evaluate getTooltip system_id).

Local Abbreviation prepareStat :=
  (Stat.prepareStatMacro LancerActor AccDiffData AccDiffObject Roll
     toUpperCase actor_fromUuidSync resolve_dotpath fromParams_actor openSlidingHud
     toObject fromObject base_total evaluate getTooltip system_id).

Local Abbreviation prepareSkill :=
  (Stat.prepareSkillMacro LancerActor LancerItem AccDiffData AccDiffObject
     Roll item_fromUuidSync item_name curr_rank fromParams_item
     openSlidingHud toObject fromObject base_total evaluate getTooltip
     system_id).

(** Past its guard, the roller does roll: with an actor at hand the first
    event is the evaluation of the dice formula, and a fulfilled roll and
    tooltip end in a chat card for that actor. *)
Lemma roll_and_render_rolls (actor : LancerActor) (data : Data) (roll : Roll)
    (tip : string) :
  evaluate ("1d20+" ++ Stat.show_number (Stat.or_zero (Stat.sr_bonus _ data))
              ++ (if negb (Z.eqb (base_total (fromObject
                                    (Stat.sr_acc_diff _ data))) 0)
                  then " + " ++ Stat.show_number
                         (base_total (fromObject (Stat.sr_acc_diff _ data)))
                       ++ "d6kh1"
                  else EmptyString)) = Fulfilled roll ->
  getTooltip roll = Fulfilled tip ->
  exists formula template tdata,
    Stat.roll_and_render LancerActor AccDiffData AccDiffObject Roll
      fromObject base_total evaluate getTooltip system_id actor data
    = ([Stat.RollEvaluated _ _ formula;
        Stat.ChatCardRendered _ _ actor template tdata],
       Fulfilled (Some tt))
    /\ Stat.td_title _ tdata = Stat.sr_title _ data
    /\ Stat.td_roll_tooltip _ tdata = tip.
Proof.
  intros Hroll Htt. unfold Stat.roll_and_render.
  do 3 eexists. simpl. rewrite Hroll. simpl. rewrite Htt. simpl.
  repeat split; reflexivity.
Qed.

(** The preparers cause at most the opening of the sliding HUD. *)
Lemma prepareStatMacro_trace (actor : string + LancerActor) (statKey : string) :
  trace (prepareStat actor statKey) = []
  \/ trace (prepareStat actor statKey) = [Stat.SlidingHudOpened _ _ "hase"].
Proof.
  unfold Stat.prepareStatMacro, Stat.call.
  destruct (actor_fromUuidSync actor); simpl; [|left; reflexivity].
  destruct (openSlidingHud _ _); simpl; right; reflexivity.
Qed.

Lemma prepareSkillMacro_trace (item : string + LancerItem) :
  trace (prepareSkill item) = []
  \/ trace (prepareSkill item) = [Stat.SlidingHudOpened _ _ "hase"].
Proof.
  unfold Stat.prepareSkillMacro, Stat.call.
  destruct (item_fromUuidSync item); simpl; [|left; reflexivity].
  destruct (openSlidingHud _ _); simpl; right; reflexivity.
Qed.

(** C10: for every roll data, [rollStatMacro] returns [undefined] at its
    guard with no event at all: no dice roll is evaluated and no chat card
    is rendered; and no event of [prepareStatMacro] or [prepareSkillMacro]
    is a dice roll or a chat card. *)
Theorem rollStatMacro_returns_at_guard :
  (forall data : Data, rollStat data = ([], Fulfilled None))
  /\ (forall actor statKey,
        List.filter (Stat.rolls_or_renders _ _) (trace (prepareStat actor statKey)) = [])
  /\ (forall item,
        List.filter (Stat.rolls_or_renders _ _) (trace (prepareSkill item)) = []).
Proof.
  split; [|split].
  - intros data. reflexivity.
  - intros actor statKey.
    destruct (prepareStatMacro_trace actor statKey) as [-> | ->]; reflexivity.
  - intros item.
    destruct (prepareSkillMacro_trace item) as [-> | ->]; reflexivity.
Qed.

End StatFlow.

(** ** More on the document blob builder *)

Section BlobBuilderMore.
Context {V : Type} `{JsAny V} (save : @LiveEntry V -> gmap string V).

(** X1: when [top_level_data.name] is a non-empty string other than the name
    the document was loaded with, it wins: the entry is renamed to it, the
    blob carries it as its top-level name, and the nested data is the save of
    the renamed entry, with the [data] of the overrides, if they carry one,
    merged over it. *)
Theorem as_document_blob_top_level_name_wins (ent : LiveEntry) (n : string) :
  tl_name (top_level_data (Flags ent)) = Some n ->
  n <> EmptyString ->
  n <> orig_doc_name (Flags ent) ->
  fst (as_document_blob save ent) = set_Name ent n
  /\ blob_name (snd (as_document_blob save ent)) = Some n
  /\ blob_data (snd (as_document_blob save ent))
     = match tl_data (top_level_data (Flags ent)) with
       | Some d => merge_fields (save (set_Name ent n)) d
       | None => save (set_Name ent n)
       end.
Proof.
  intros Htl Hne Horig.
  unfold as_document_blob, mergeObject; simpl. rewrite Htl; simpl.
  unfold truthy_string.
  destruct (String.eqb_spec n EmptyString); [contradiction|].
  destruct (String.eqb_spec n (orig_doc_name (Flags ent))); [contradiction|].
  simpl. auto.
Qed.

(** X2: whatever the names, the call leaves the entry's flags, registry id
    and other fields alone. The blob's id is the [_id] of the overrides when
    they carry one and the registry id otherwise; its name and other
    top-level fields are those of the overrides as they were; and its nested
    data is the save of the entry as the call leaves it, with the [data] of
    the overrides, if any, merged over it. *)
Theorem as_document_blob_frame (ent : LiveEntry) :
  Flags (fst (as_document_blob save ent)) = Flags ent
  /\ RegistryID (fst (as_document_blob save ent)) = RegistryID ent
  /\ own_fields (fst (as_document_blob save ent)) = own_fields ent
  /\ blob_id (snd (as_document_blob save ent))
     = default (RegistryID ent) (tl_id (top_level_data (Flags ent)))
  /\ blob_name (snd (as_document_blob save ent))
     = tl_name (top_level_data (Flags ent))
  /\ blob_rest (snd (as_document_blob save ent))
     = tl_rest (top_level_data (Flags ent))
  /\ blob_data (snd (as_document_blob save ent))
     = match tl_data (top_level_data (Flags ent)) with
       | Some d => merge_fields (save (fst (as_document_blob save ent))) d
       | None => save (fst (as_document_blob save ent))
       end.
Proof.
  unfold as_document_blob, mergeObject; simpl.
  repeat (destruct (_ && _); simpl); repeat split.
Qed.

(** X3: building the blob again from the entry the first call left gives the
    same entry and the same blob. *)
Theorem as_document_blob_idempotent (ent : LiveEntry) :
  as_document_blob save (fst (as_document_blob save ent))
    = as_document_blob save ent.
Proof.
  unfold as_document_blob at 2 3; simpl.
  destruct (truthy_opt_string (tl_name (top_level_data (Flags ent)))
            && name_differs (tl_name (top_level_data (Flags ent)))
                 (orig_doc_name (Flags ent))) eqn:Htop; simpl.
  - unfold as_document_blob; simpl. rewrite Htop. reflexivity.
  - destruct (truthy_string (Name ent)
              && negb (String.eqb (Name ent) (orig_doc_name (Flags ent))))
      eqn:Hown; simpl;
      unfold as_document_blob; simpl; rewrite Htop, Hown; reflexivity.
Qed.

End BlobBuilderMore.

(** The override "X" against a document loaded as "Y". *)
Lemma as_document_blob_top_level_name_wins_witness :
  blob_name (snd (as_document_blob sample_save
                    (sample_entry "Y" (Some "X") "Y"))) = Some "X"
  /\ Name (fst (as_document_blob sample_save
                  (sample_entry "Y" (Some "X") "Y"))) = "X".
Proof.
  destruct (as_document_blob_top_level_name_wins sample_save
              (sample_entry "Y" (Some "X") "Y") "X" eq_refl)
    as (Hent & Hname & _); [discriminate | discriminate |].
  split; [exact Hname | rewrite Hent; reflexivity].
Defined.

(** ** More on the resolver and the constructor *)

Section ResolverMore.
Context {V : Type}.
Variable get_pack_id : EntryType -> string.
Variable is_actor_type : EntryType -> bool.
Variable game : @Game V.

Local Abbreviation lookup := (lookup_collection get_pack_id is_actor_type game).
Local Abbreviation construct := (NuWrapper_new get_pack_id is_actor_type game).
Local Abbreviation missing := (target_missing get_pack_id game).

(** X4: the promise the resolver returns rejects exactly when the target the
    source names is missing (the pack; the world actor; the scene, its token
    or the token's actor), and then with an [Error], never a [TypeError];
    with the target there it fulfils. The world and bare scene sources
    never reject, and neither does a registered compendium whose actor is
    missing. *)
Theorem lookup_collection_rejects_iff_missing (type : EntryType)
    (cfg : FoundryRegNameParsed) :
  (missing type cfg = true ->
     exists msg, returned (lookup type cfg) = Rejected (Error msg))
  /\ (missing type cfg = false ->
      exists h, returned (lookup type cfg) = Fulfilled h).
Proof.
  unfold target_missing, lookup_collection.
  destruct cfg as [c t a|a|s t|c| | |s]; simpl.
  - destruct (packs game !! c); simpl; split; intros; try discriminate; eauto.
  - destruct (coll_get (actors game) a); simpl; split; intros;
      try discriminate; eauto.
  - destruct (scenes game !! s) as [sc|]; simpl;
      [destruct (tokens sc !! t) as [tok|]; simpl;
       [destruct (token_actor tok); simpl|]|];
      split; intros; try discriminate; eauto.
  - destruct (packs game !! c); simpl; split; intros; try discriminate; eauto.
  - destruct (packs game !! get_pack_id type); simpl; split; intros;
      try discriminate; eauto.
  - destruct (is_actor_type type); simpl; split; intros;
      try discriminate; eauto.
  - split; intros; try discriminate; eauto.
Qed.

(** X5: the resolver leaves a promise chain behind, neither returned nor
    awaited, for exactly one kind of source: an actor of a registered
    compendium. *)
Theorem lookup_collection_detached_iff (type : EntryType)
    (cfg : FoundryRegNameParsed) :
  is_Some (detached (lookup type cfg))
  <-> exists comp_id token_id actor_id,
        cfg = src_comp_actor comp_id token_id actor_id
        /\ is_Some (packs game !! comp_id).
Proof.
  unfold lookup_collection. split.
  - destruct cfg as [c t a|a|s t|c| | |s]; simpl.
    + destruct (packs game !! c) eqn:Hp; simpl.
      * intros _. exists c, t, a. rewrite Hp. eauto.
      * intros [? [=]].
    + destruct (coll_get _ _); simpl; intros [? [=]].
    + destruct (scenes game !! s) as [sc|]; simpl;
        [destruct (tokens sc !! t) as [tok|]; simpl;
         [destruct (token_actor tok); simpl|]|];
        intros [? [=]].
    + destruct (packs game !! c); simpl; intros [? [=]].
    + destruct (packs game !! _); simpl; intros [? [=]].
    + destruct (is_actor_type type); simpl; intros [? [=]].
    + intros [? [=]].
  - intros (c & t & a & -> & [p Hp]). simpl. rewrite Hp. simpl. eauto.
Qed.

(** X6: no compendium source ever resolves to a collection: whatever the
    registries hold, the promise for a comp, comp_core or comp_actor source
    rejects or fulfils with [undefined]. *)
Theorem lookup_collection_pack_source_no_handle (type : EntryType)
    (cfg : FoundryRegNameParsed) (c : Collection) :
  pack_source cfg = true ->
  returned (lookup type cfg) <> Fulfilled (Some c).
Proof.
  unfold lookup_collection.
  destruct cfg as [p t a|a|s t|p| | |s]; simpl; try discriminate; intros _.
  - destruct (packs game !! p); simpl; discriminate.
  - destruct (packs game !! p); simpl; discriminate.
  - destruct (packs game !! _); simpl; discriminate.
Qed.

(** What the constructor stores. *)
Lemma NuWrapper_new_stores (type : EntryType) (cfg : FoundryRegNameParsed)
    (w : NuWrapper) :
  construct type cfg = Normal w ->
  entry_type w = type
  /\ collection w = returned (lookup type cfg)
  /\ (pack_source cfg = false -> pack w = None)
  /\ (bare_scene_source cfg = false -> scene w = None).
Proof.
  unfold NuWrapper_new.
  destruct cfg; simpl; try destruct (scenes game !! scene_id);
    intros [= <-]; simpl; repeat split; try discriminate; reflexivity.
Qed.

(** X7: the constructor throws in exactly one situation, a bare scene source
    whose scene is not registered, and the error quotes the scene id; a
    source whose pack, actor or token is missing still constructs. *)
Theorem NuWrapper_new_throws_iff (type : EntryType)
    (cfg : FoundryRegNameParsed) (e : JsError) :
  construct type cfg = Throw e
  <-> exists scene_id,
        cfg = src_scene scene_id
        /\ scenes game !! scene_id = None
        /\ e = Error ("Invalid scene id: " ++ quote ++ scene_id ++ quote).
Proof.
  unfold NuWrapper_new. split.
  - destruct cfg; simpl; try discriminate.
    destruct (scenes game !! scene_id) eqn:Hs; simpl; [discriminate|].
    intros [= <-]. eauto.
  - intros (s & -> & Hs & ->). simpl. rewrite Hs. reflexivity.
Qed.

End ResolverMore.

(** The registered compendium "world.mech" resolves to no collection. *)
Lemma lookup_collection_pack_source_no_handle_witness :
  returned (lookup_collection sample_get_pack_id sample_is_actor_type
              sample_game "mech" (src_comp "world.mech"))
    <> Fulfilled (Some sample_pack).
Proof.
  apply (lookup_collection_pack_source_no_handle sample_get_pack_id
           sample_is_actor_type sample_game "mech" (src_comp "world.mech")
           sample_pack).
  reflexivity.
Defined.

(** ** The operations on a wrapper whose resolution failed *)

Section FailedResolution.
Context {V : Type} `{JsAny V}.
Variable save : @LiveEntry V -> gmap string V.
Variable get_pack_id : EntryType -> string.
Variable is_actor_type : EntryType -> bool.
Variable createDocuments :
  DocumentClass -> list (@CreateData V) -> ModificationContext ->
  HostReturn (list (@Document V)).
Variable updateDocuments :
  DocumentClass -> list (@DocumentBlob V) -> ModificationContext ->
  HostReturn (list (@Document V)).
Variable deleteDocuments :
  DocumentClass -> list string -> ModificationContext ->
  HostReturn (list (@Document V)).
Variable game : @Game V.

(** Every operation of a wrapper with no collection and no scene rejects
    with that failure, causes no event, and [update] leaves the entries as
    they are. *)
Lemma operations_without_collection (w : @NuWrapper V) (e : JsError) :
  failure_of (collection w) = Some e ->
  scene w = None ->
  (forall id, get w id = ([], Rejected e))
  /\ (forall q, query w q = ([], Rejected e))
  /\ enumerate w = ([], Rejected e)
  /\ (forall recs, create_many createDocuments w recs = ([], Rejected e))
  /\ (forall ents,
        update save updateDocuments w ents = (ents, ([], Rejected e)))
  /\ (forall id, destroy deleteDocuments w id = ([], Rejected e)).
Proof.
  intros Hf Hs.
  assert (Hc : collection w = Rejected e
               \/ (collection w = Fulfilled None /\ e = TypeError)).
  { destruct (collection w) as [[c|]|e']; simpl in Hf;
      [discriminate| |]; injection Hf as <-; auto. }
  unfold get, enumerate, query, create_many, update, destroy, non_scene_opts.
  rewrite Hs.
  destruct Hc as [Hc | [Hc ->]]; rewrite Hc; simpl;
    destruct (truthy_opt_string (pack w)); simpl; repeat split.
Qed.

(** X8: a failed resolution does not stop the constructor; it surfaces at
    every operation instead. If the resolver's promise for the source
    rejects with [e], the constructor still returns a wrapper, and on it
    [get], [query], [enumerate], [create_many], [update] and [destroy] all
    reject with [e] and reach neither the console nor the backend; [update]
    leaves the entries untouched. *)
Theorem operations_reject_after_failed_resolution (type : EntryType)
    (cfg : FoundryRegNameParsed) (e : JsError) :
  returned (lookup_collection get_pack_id is_actor_type game type cfg)
    = Rejected e ->
  exists w,
    NuWrapper_new get_pack_id is_actor_type game type cfg = Normal w
    /\ (forall id, get w id = ([], Rejected e))
    /\ (forall q, query w q = ([], Rejected e))
    /\ enumerate w = ([], Rejected e)
    /\ (forall recs, create_many createDocuments w recs = ([], Rejected e))
    /\ (forall ents,
          update save updateDocuments w ents = (ents, ([], Rejected e)))
    /\ (forall id, destroy deleteDocuments w id = ([], Rejected e)).
Proof.
  intros Hrej.
  assert (Hns : bare_scene_source cfg = false).
  { destruct cfg; try reflexivity. simpl in Hrej. discriminate. }
  destruct (NuWrapper_new_total get_pack_id is_actor_type game type cfg)
    as [w Hw].
  { intros s ->. discriminate. }
  exists w. split; [exact Hw|].
  destruct (NuWrapper_new_stores _ _ _ _ _ _ Hw) as (_ & Hc & _ & Hsc).
  apply operations_without_collection.
  - rewrite Hc, Hrej. reflexivity.
  - apply Hsc, Hns.
Qed.

(** X9: a wrapper constructed over a compendium source whose pack is
    registered is of no use: its collection is [undefined], and [get],
    [query], [enumerate], [create_many], [update] and [destroy] all reject
    with a [TypeError] before reaching the backend. *)
Theorem operations_on_registered_pack_source (type : EntryType)
    (cfg : FoundryRegNameParsed) :
  pack_source cfg = true ->
  target_missing get_pack_id game type cfg = false ->
  exists w,
    NuWrapper_new get_pack_id is_actor_type game type cfg = Normal w
    /\ collection w = Fulfilled None
    /\ (forall id, get w id = ([], Rejected TypeError))
    /\ (forall q, query w q = ([], Rejected TypeError))
    /\ enumerate w = ([], Rejected TypeError)
    /\ (forall recs,
          create_many createDocuments w recs = ([], Rejected TypeError))
    /\ (forall ents,
          update save updateDocuments w ents
            = (ents, ([], Rejected TypeError)))
    /\ (forall id, destroy deleteDocuments w id = ([], Rejected TypeError)).
Proof.
  intros Hp Hm.
  destruct (NuWrapper_new_total get_pack_id is_actor_type game type cfg)
    as [w Hw].
  { intros s ->. discriminate. }
  exists w. split; [exact Hw|].
  destruct (NuWrapper_new_stores _ _ _ _ _ _ Hw) as (_ & Hc & _ & Hsc).
  assert (Hu : collection w = Fulfilled None).
  { rewrite Hc. unfold target_missing in Hm. unfold lookup_collection.
    destruct cfg; simpl in *; try discriminate;
      destruct (packs game !! _); simpl in *; try discriminate; reflexivity. }
  split; [exact Hu|].
  apply operations_without_collection.
  - rewrite Hu. reflexivity.
  - apply Hsc. destruct cfg; simpl in *; try discriminate; reflexivity.
Qed.

End FailedResolution.

(** ** More on the read operations *)

Section ReadsMore.
Context {V : Type} `{JsAny V}.

(** The results of a fulfilled [query] are the documents of some list, each
    wrapped by [to_GetResult]. *)
Lemma query_fulfilled_shape (w : @NuWrapper V) (query_obj : gmap string V)
    (rs : list GetResult) :
  outcome (query w query_obj) = Fulfilled rs ->
  exists all, rs = map (to_GetResult w) all.
Proof.
  unfold query.
  destruct (collection w) as [[c|]|e]; simpl;
    destruct (truthy_opt_string (pack w)); simpl;
    intros [= <-] || discriminate; eauto.
Qed.

(** X11: every result of a fulfilled [query], pack-backed or not, is
    stamped with the wrapper's entry type, and its id and data are those of
    the document it carries. *)
Theorem query_results_well_formed (w : @NuWrapper V)
    (query_obj : gmap string V) (rs : list GetResult) :
  outcome (query w query_obj) = Fulfilled rs ->
  Forall (fun r => gr_type r = entry_type w
                   /\ gr_id r = doc_id (gr_entity r)
                   /\ gr_data r = Some (doc_data (gr_entity r))) rs.
Proof.
  intros Hq. destruct (query_fulfilled_shape _ _ _ Hq) as [all ->].
  clear Hq. induction all as [|d all IH]; simpl; constructor; auto.
Qed.

(** On a wrapper that is not pack-backed and is resolved, [query] is the
    filter of the contents. *)
Lemma query_non_pack (w : @NuWrapper V) (c : @Collection V)
    (query_obj : gmap string V) :
  truthy_opt_string (pack w) = false ->
  collection w = Fulfilled (Some c) ->
  query w query_obj
    = ([], Fulfilled (map (to_GetResult w)
                          (filter (satisfies w query_obj) (contents c)))).
Proof.
  intros Hp Hc. unfold query. rewrite Hc, Hp. simpl.
  rewrite filter_query_filter. reflexivity.
Qed.

Lemma satisfies_weaken (w : @NuWrapper V) (q q' : gmap string V)
    (d : @Document V) :
  q ⊆ q' -> satisfies w q' d -> satisfies w q d.
Proof.
  intros Hsub [Hty Hall]. split; [assumption|].
  intros k v Hkv. apply Hall. eapply lookup_weaken; eassumption.
Qed.

Lemma filter_satisfies_sublist (w : @NuWrapper V) (q q' : gmap string V)
    (docs : list (@Document V)) :
  q ⊆ q' ->
  filter (satisfies w q') docs `sublist_of` filter (satisfies w q) docs.
Proof.
  intros Hsub. induction docs as [|d docs IH]; [constructor|].
  rewrite !filter_cons.
  destruct (decide (satisfies w q' d)) as [Hs'|Hs'].
  - destruct (decide (satisfies w q d)) as [Hs|Hs].
    + apply sublist_skip, IH.
    + exfalso. apply Hs. eapply satisfies_weaken; eassumption.
  - destruct (decide (satisfies w q d)); [apply sublist_cons|]; apply IH.
Qed.

Lemma sublist_map {A B} (f : A -> B) (l1 l2 : list A) :
  l1 `sublist_of` l2 -> map f l1 `sublist_of` map f l2.
Proof.
  induction 1; simpl; [constructor | apply sublist_skip | apply sublist_cons];
    assumption.
Qed.

(** X12: more criteria, fewer results: on a resolved wrapper that is not
    pack-backed, the results of a query are a sublist (same order, nothing
    new) of the results of any query with fewer criteria. *)
Theorem query_more_criteria_sublist (w : @NuWrapper V) (c : @Collection V)
    (q q' : gmap string V) :
  truthy_opt_string (pack w) = false ->
  collection w = Fulfilled (Some c) ->
  q ⊆ q' ->
  exists rs rs',
    query w q = ([], Fulfilled rs)
    /\ query w q' = ([], Fulfilled rs')
    /\ rs' `sublist_of` rs.
Proof.
  intros Hp Hc Hsub.
  do 2 eexists. rewrite !(query_non_pack w c) by assumption.
  split; [reflexivity|]. split; [reflexivity|].
  apply sublist_map, filter_satisfies_sublist, Hsub.
Qed.

(** [collection.get(id)] finds a document of the contents stored under
    [id]. *)
Lemma coll_get_Some (c : @Collection V) (id : string) (d : @Document V) :
  coll_get c id = Some d -> d ∈ contents c /\ doc_id d = id.
Proof.
  unfold coll_get. intros Hf. apply find_some in Hf as [Hin Hid].
  split; [apply list_elem_of_In, Hin | apply String.eqb_eq, Hid].
Qed.

(** With one document per id, it finds each document under its own id. *)
Lemma coll_get_NoDup (c : @Collection V) (d : @Document V) :
  NoDup (map doc_id (contents c)) ->
  d ∈ contents c ->
  coll_get c (doc_id d) = Some d.
Proof.
  unfold coll_get. induction (contents c) as [|x l IH]; simpl.
  - intros _ Hin. inversion Hin.
  - intros Hnd Hin. apply NoDup_cons in Hnd as [Hx Hnd].
    destruct (String.eqb_spec (doc_id x) (doc_id d)) as [Heq|Hneq].
    + apply elem_of_cons in Hin as [->|Hin]; [reflexivity|].
      exfalso. apply Hx. rewrite Heq.
      apply list_elem_of_In, in_map, list_elem_of_In, Hin.
    + apply elem_of_cons in Hin as [->|Hin]; [congruence|].
      apply IH; assumption.
Qed.

(** With no criteria, the filter of [query] keeps the documents of the
    wrapper's entry type. *)
Lemma query_empty_by_type (w : @NuWrapper V) (c : @Collection V) :
  truthy_opt_string (pack w) = false ->
  collection w = Fulfilled (Some c) ->
  query w ∅
    = ([], Fulfilled
             (map (to_GetResult w)
                  (List.filter
                     (fun d => String.eqb (doc_type d) (entry_type w))
                     (contents c)))).
Proof.
  intros Hp Hc. unfold query. rewrite Hc, Hp. simpl.
  do 3 f_equal. apply List.filter_ext. intros d.
  unfold query_filter. rewrite map_to_list_empty. simpl.
  destruct (String.eqb _ _); reflexivity.
Qed.

(** X13: on a resolved wrapper that is not pack-backed, [enumerate] returns
    every document of the contents whose type is the wrapper's entry type,
    in order, and nothing else. *)
Theorem enumerate_non_pack_by_type (w : @NuWrapper V) (c : @Collection V) :
  truthy_opt_string (pack w) = false ->
  collection w = Fulfilled (Some c) ->
  enumerate w
    = ([], Fulfilled
             (map (to_GetResult w)
                  (List.filter
                     (fun d => String.eqb (doc_type d) (entry_type w))
                     (contents c)))).
Proof.
  intros Hp Hc. unfold enumerate. apply query_empty_by_type; assumption.
Qed.

(** X14: what [get] finds, [enumerate] lists: on a resolved wrapper that is
    not pack-backed, a result returned by [get] is one of the results of
    [enumerate]. *)
Theorem get_result_in_enumerate (w : @NuWrapper V) (c : @Collection V)
    (id : string) (r : GetResult) :
  truthy_opt_string (pack w) = false ->
  collection w = Fulfilled (Some c) ->
  get w id = ([], Fulfilled (Some r)) ->
  exists rs, enumerate w = ([], Fulfilled rs) /\ r ∈ rs.
Proof.
  intros Hp Hc Hget.
  unfold enumerate. rewrite (query_empty_by_type w c Hp Hc).
  eexists. split; [reflexivity|].
  unfold get in Hget. rewrite Hc, Hp in Hget. simpl in Hget.
  destruct (coll_get c id) as [d|] eqn:Hd; simpl in Hget; [|discriminate].
  destruct (String.eqb (doc_type d) (entry_type w)) eqn:Hty;
    simpl in Hget; [|discriminate].
  injection Hget as <-.
  apply coll_get_Some in Hd as [Hin <-].
  apply list_elem_of_In.
  change {| gr_data := Some (doc_data d); gr_entity := d;
            gr_id := doc_id d; gr_type := entry_type w |}
    with (to_GetResult w d).
  apply in_map, List.filter_In. split; [apply list_elem_of_In, Hin | exact Hty].
Qed.

(** X15: what [enumerate] lists, [get] finds: on a resolved wrapper that is
    not pack-backed and whose collection holds one document per id, [get] on
    the id of a result of [enumerate] returns that very result. *)
Theorem enumerate_result_get (w : @NuWrapper V) (c : @Collection V)
    (rs : list GetResult) (r : GetResult) :
  truthy_opt_string (pack w) = false ->
  collection w = Fulfilled (Some c) ->
  NoDup (map doc_id (contents c)) ->
  enumerate w = ([], Fulfilled rs) ->
  r ∈ rs ->
  get w (gr_id r) = ([], Fulfilled (Some r)).
Proof.
  intros Hp Hc Hnd Henum Hin.
  unfold enumerate in Henum.
  rewrite (query_empty_by_type w c Hp Hc) in Henum.
  injection Henum as <-.
  apply list_elem_of_In, in_map_iff in Hin as (d & <- & Hd).
  apply List.filter_In in Hd as [Hd Hty].
  unfold get. rewrite Hc, Hp. simpl.
  rewrite (coll_get_NoDup c d Hnd) by (apply list_elem_of_In, Hd).
  simpl. rewrite Hty. reflexivity.
Qed.

End ReadsMore.

(** ** More on the write operations *)

Section WritesMore.
Context {V : Type} `{JsAny V}.
Variable save : @LiveEntry V -> gmap string V.
Variable createDocuments :
  DocumentClass -> list (@CreateData V) -> ModificationContext ->
  HostReturn (list (@Document V)).
Variable updateDocuments :
  DocumentClass -> list (@DocumentBlob V) -> ModificationContext ->
  HostReturn (list (@Document V)).
Variable deleteDocuments :
  DocumentClass -> list string -> ModificationContext ->
  HostReturn (list (@Document V)).

(** The options of a resolved wrapper: the parent of its collection, if
    any, and its pack. *)
Lemma non_scene_opts_resolved (w : @NuWrapper V) (c : @Collection V) :
  collection w = Fulfilled (Some c) ->
  non_scene_opts w
    = ([], Fulfilled {| ctx_parent := parent c; ctx_pack := pack w |}).
Proof.
  intros Hc. unfold non_scene_opts. rewrite Hc. simpl.
  destruct (parent c); reflexivity.
Qed.

(** X16: on a resolved wrapper with no scene, [create_many] reaches the
    backend exactly once, whatever the number of records (none included):
    one bulk create on the collection's document class, with one datum per
    record in order, each made of the wrapper's entry type, what [d.name]
    reads on the record, and the host's copy [duplicate(d)] of the record,
    under the collection's parent and the wrapper's pack. *)
Theorem create_many_one_bulk_create (w : @NuWrapper V) (c : @Collection V)
    (reg_data : list (gmap string V)) :
  scene w = None ->
  collection w = Fulfilled (Some c) ->
  trace (create_many createDocuments w reg_data)
    = [CreateDocuments (documentClass c) (map (create_data w) reg_data)
         {| ctx_parent := parent c; ctx_pack := pack w |}].
Proof.
  intros Hs Hc. unfold create_many.
  rewrite Hs, (non_scene_opts_resolved w c Hc), Hc. simpl.
  destruct (createDocuments _ _ _); reflexivity.
Qed.

(** X17: when the host hands the created documents back, [create_many]
    returns one result per created document, in order: the result at index
    [i] carries the [i]-th document and its id, the wrapper's entry type,
    and as data the [i]-th input record ([undefined] if the host created
    more documents than there were records). *)
Theorem create_many_results (w : @NuWrapper V) (c : @Collection V)
    (reg_data : list (gmap string V)) (new_docs : list (@Document V)) :
  scene w = None ->
  collection w = Fulfilled (Some c) ->
  createDocuments (documentClass c) (map (create_data w) reg_data)
    {| ctx_parent := parent c; ctx_pack := pack w |} = Plain new_docs ->
  exists rs,
    outcome (create_many createDocuments w reg_data) = Fulfilled rs
    /\ length rs = length new_docs
    /\ forall i r, rs !! i = Some r ->
         new_docs !! i = Some (gr_entity r)
         /\ gr_id r = doc_id (gr_entity r)
         /\ gr_type r = entry_type w
         /\ gr_data r = reg_data !! i.
Proof.
  intros Hs Hc Hhost. unfold create_data in Hhost.
  unfold create_many.
  rewrite Hs, (non_scene_opts_resolved w c Hc), Hc. simpl.
  rewrite Hhost. simpl.
  eexists. split; [reflexivity|]. split; [apply length_imap|].
  intros i r Hr. apply list_lookup_imap_Some in Hr as (d & Hd & ->).
  simpl. auto.
Qed.

(** X18: when the host answers [createDocuments] with a promise, the bulk
    create is issued and [create_many] then rejects with a [TypeError]: the
    promise is not awaited before [map] is called on it. *)
Theorem create_many_unawaited_promise (w : @NuWrapper V) (c : @Collection V)
    (reg_data : list (gmap string V)) (p : Promise (list (@Document V))) :
  scene w = None ->
  collection w = Fulfilled (Some c) ->
  createDocuments (documentClass c) (map (create_data w) reg_data)
    {| ctx_parent := parent c; ctx_pack := pack w |} = Pending p ->
  create_many createDocuments w reg_data
    = ([CreateDocuments (documentClass c) (map (create_data w) reg_data)
          {| ctx_parent := parent c; ctx_pack := pack w |}],
       Rejected TypeError).
Proof.
  intros Hs Hc Hhost. unfold create_data in *.
  unfold create_many.
  rewrite Hs, (non_scene_opts_resolved w c Hc), Hc. simpl.
  rewrite Hhost. reflexivity.
Qed.

(** X19: on a resolved wrapper, with or without a scene, [update] reaches
    the backend exactly once: one bulk update with the blobs that
    [as_document_blob] builds for the entries, one per entry and in order;
    the id of a blob is the [_id] of its entry's overrides when they carry
    one and the entry's registry id otherwise; the entries are left as
    [as_document_blob] leaves them, with their flags as they were; and the
    promise settles as the host's does. *)
Theorem update_one_bulk_update (w : @NuWrapper V) (c : @Collection V)
    (ents : list (@LiveEntry V)) :
  collection w = Fulfilled (Some c) ->
  exists blobs,
    snd (update save updateDocuments w ents)
      = ([inr (UpdateDocuments (documentClass c) blobs
                 {| ctx_parent := parent c; ctx_pack := pack w |})],
         adopt (updateDocuments (documentClass c) blobs
                  {| ctx_parent := parent c; ctx_pack := pack w |}))
    /\ blobs = map (fun ent => snd (as_document_blob save ent)) ents
    /\ fst (update save updateDocuments w ents)
       = map (fun ent => fst (as_document_blob save ent)) ents
    /\ map blob_id blobs
       = map (fun ent => default (RegistryID ent)
                           (tl_id (top_level_data (Flags ent)))) ents
    /\ map Flags (fst (update save updateDocuments w ents)) = map Flags ents.
Proof.
  intros Hc. unfold update.
  rewrite (non_scene_opts_resolved w c Hc), Hc. simpl.
  eexists. split; [reflexivity|].
  split; [reflexivity|]. split; [reflexivity|].
  rewrite !map_map.
  split; apply map_ext; intros ent;
    unfold as_document_blob, mergeObject; simpl;
    repeat (destruct (_ && _); simpl); reflexivity.
Qed.

(** X20: on a resolved wrapper, [destroy] issues exactly one bulk delete,
    for the one-element list of the id it was given, under the collection's
    parent and the wrapper's pack, without looking the id up first; its
    promise settles as the host's does. *)
Theorem destroy_one_bulk_delete (w : @NuWrapper V) (c : @Collection V)
    (id : string) :
  collection w = Fulfilled (Some c) ->
  destroy deleteDocuments w id
    = ([inr (DeleteDocuments (documentClass c) [id]
               {| ctx_parent := parent c; ctx_pack := pack w |})],
       adopt (deleteDocuments (documentClass c) [id]
                {| ctx_parent := parent c; ctx_pack := pack w |})).
Proof.
  intros Hc. unfold destroy.
  rewrite (non_scene_opts_resolved w c Hc), Hc. reflexivity.
Qed.

End WritesMore.

(** ** More on the stat flow *)

Lemma string_app_cons (c : ascii) (a b : string) :
  String c a ++ b = String c (a ++ b).
Proof. reflexivity. Qed.

Lemma string_app_nil_r (s : string) : s ++ EmptyString = s.
Proof.
  induction s as [|c s IH]; [reflexivity|].
  rewrite string_app_cons, IH. reflexivity.
Qed.

Lemma string_app_assoc (a b c : string) : (a ++ b) ++ c = a ++ (b ++ c).
Proof.
  induction a as [|x a IH]; [reflexivity|].
  rewrite !string_app_cons, IH. reflexivity.
Qed.

Lemma count_dots_app (a b : string) :
  Stat.count_dots (a ++ b) = Stat.count_dots a + Stat.count_dots b.
Proof.
  induction a as [|x a IH]; [reflexivity|].
  rewrite string_app_cons. simpl.
  destruct (Ascii.eqb x "."); simpl; rewrite IH; reflexivity.
Qed.

(** The splitter with a segment under way. *)
Lemma split_dot_from_spec (cur s : string) :
  Stat.count_dots cur = 0 ->
  String.concat "." (Stat.split_dot_from cur s) = cur ++ s
  /\ length (Stat.split_dot_from cur s) = S (Stat.count_dots s)
  /\ Forall (fun seg => Stat.count_dots seg = 0) (Stat.split_dot_from cur s).
Proof.
  revert cur. induction s as [|c s IH]; intros cur Hcur; simpl.
  - rewrite string_app_nil_r. repeat split. constructor; [assumption|constructor].
  - destruct (Ascii.eqb_spec c ".") as [->|Hc].
    + destruct (IH EmptyString eq_refl) as (Hcat & Hlen & Hall).
      repeat split.
      * destruct (Stat.split_dot_from EmptyString s) as [|seg segs] eqn:Hs;
          [discriminate|].
        change (cur ++ "." ++ String.concat "." (seg :: segs)
                = cur ++ String "." s).
        rewrite Hcat. reflexivity.
      * simpl. rewrite Hlen. reflexivity.
      * constructor; assumption.
    + apply Ascii.eqb_neq in Hc.
      destruct (IH (cur ++ String c EmptyString)) as (Hcat & Hlen & Hall).
      { rewrite count_dots_app, Hcur. simpl. rewrite Hc. reflexivity. }
      repeat split; try assumption.
      rewrite Hcat, string_app_assoc. reflexivity.
Qed.

(** X21: [split(".")] as the flow uses it loses nothing: joining the
    segments with "." gives the key back; there is one segment more than
    there are dots (so at least one, also for the empty key), and no segment
    holds a dot. *)
Theorem split_dot_join (s : string) :
  String.concat "." (Stat.split_dot s) = s
  /\ length (Stat.split_dot s) = S (Stat.count_dots s)
  /\ Forall (fun seg => Stat.count_dots seg = 0) (Stat.split_dot s).
Proof. exact (split_dot_from_spec EmptyString s eq_refl). Qed.

Section StatFlowMore.
Variables LancerActor LancerItem AccDiffData AccDiffObject Roll : Type.
Variable toUpperCase : string -> string.
Variable actor_fromUuidSync : string + LancerActor -> Completion LancerActor.
Variable item_fromUuidSync : string + LancerItem -> Completion LancerItem.
Variable resolve_dotpath : LancerActor -> string -> option Z.
Variable item_name : LancerItem -> string.
Variable curr_rank : LancerItem -> Z.
Variable fromParams_actor : LancerActor -> string -> AccDiffData.
Variable fromParams_item : LancerItem -> string -> AccDiffData.
Variable openSlidingHud : string -> AccDiffData -> Promise AccDiffData.
Variable toObject : AccDiffData -> AccDiffObject.
Variable fromObject : AccDiffObject -> AccDiffData.
Variable base_total : AccDiffData -> Z.
Variable evaluate : string -> Promise Roll.
Variable getTooltip : Roll -> Promise string.
Variable system_id : string.

Local Abbreviation prepareStat :=
  (Stat.prepareStatMacro LancerActor AccDiffData AccDiffObject Roll
     toUpperCase actor_fromUuidSync resolve_dotpath fromParams_actor openSlidingHud
     toObject fromObject base_total evaluate getTooltip system_id).

Local Abbreviation prepareSkill :=
  (Stat.prepareSkillMacro LancerActor LancerItem AccDiffData AccDiffObject
     Roll item_fromUuidSync item_name curr_rank fromParams_item
     openSlidingHud toObject fromObject base_total evaluate getTooltip
     system_id).

(** X22: [prepareStatMacro] opens the sliding HUD exactly when the actor
    resolves, once, on accuracy data titled with the upper-cased last
    segment of the stat key; its promise rejects with the error of the
    actor lookup or of the HUD, and otherwise fulfils, whatever the bonus
    found under the key. [prepareSkillMacro] does the same for an item, the
    data titled with the item's name. *)
Theorem prepare_macros_settle :
  (forall actor statKey,
     prepareStat actor statKey
     = match actor_fromUuidSync actor with
       | Throw e => ([], Rejected e)
       | Normal a =>
           ([Stat.SlidingHudOpened _ _ "hase"],
            Stat.after_hud _ (openSlidingHud "hase"
              (fromParams_actor a
                 (toUpperCase
                    (List.last (Stat.split_dot statKey) EmptyString)))))
       end)
  /\ (forall item,
        prepareSkill item
        = match item_fromUuidSync item with
          | Throw e => ([], Rejected e)
          | Normal i =>
              ([Stat.SlidingHudOpened _ _ "hase"],
               Stat.after_hud _ (openSlidingHud "hase"
                            (fromParams_item i (item_name i))))
          end).
Proof.
  split.
  - intros actor statKey. unfold Stat.prepareStatMacro, Stat.call.
    destruct (actor_fromUuidSync actor) as [a|e]; simpl; [|reflexivity].
    destruct (openSlidingHud _ _); reflexivity.
  - intros item. unfold Stat.prepareSkillMacro, Stat.call.
    destruct (item_fromUuidSync item) as [i|e]; simpl; [|reflexivity].
    destruct (openSlidingHud _ _); reflexivity.
Qed.

End StatFlowMore.

(** ** The added properties on the sample world *)

(** A world actor that is not there: the wrapper is built, and its
    operations reject with the resolver's error. *)
Lemma operations_reject_after_failed_resolution_witness :
  exists w : @NuWrapper JsVal,
    NuWrapper_new sample_get_pack_id sample_is_actor_type sample_game
      "mech_weapon" (src_game_actor "actor-9") = Normal w
    /\ get w "item-1"
       = ([], Rejected (Error "Couldn't find game actor actor-9"))
    /\ destroy delete_host w "item-1"
       = ([], Rejected (Error "Couldn't find game actor actor-9")).
Proof.
  destruct (operations_reject_after_failed_resolution sample_save
              sample_get_pack_id sample_is_actor_type async_host update_host
              delete_host sample_game "mech_weapon"
              (src_game_actor "actor-9")
              (Error "Couldn't find game actor actor-9") eq_refl)
    as (w & Hw & Hget & _ & _ & _ & _ & Hdel).
  exists w. auto.
Defined.

(** The registered compendium "world.mech": the wrapper is built, and its
    operations reject with a [TypeError]. *)
Lemma operations_on_registered_pack_source_witness :
  exists w : @NuWrapper JsVal,
    NuWrapper_new sample_get_pack_id sample_is_actor_type sample_game
      "mech" (src_comp "world.mech") = Normal w
    /\ get w "actor-1" = ([], Rejected TypeError)
    /\ enumerate w = ([], Rejected TypeError).
Proof.
  destruct (operations_on_registered_pack_source sample_save
              sample_get_pack_id sample_is_actor_type async_host update_host
              delete_host sample_game "mech" (src_comp "world.mech")
              eq_refl eq_refl)
    as (w & Hw & _ & Hget & _ & Henum & _).
  exists w. auto.
Defined.

Lemma query_results_well_formed_witness :
  Forall (fun r : @GetResult JsVal =>
            gr_type r = "mech_weapon"
            /\ gr_id r = doc_id (gr_entity r)
            /\ gr_data r = Some (doc_data (gr_entity r)))
    [to_GetResult items_wrapper rifle].
Proof.
  apply (query_results_well_formed items_wrapper
           {[ "size" := JString "Main" ]}).
  vm_compute. reflexivity.
Defined.

Lemma query_more_criteria_sublist_witness :
  exists rs rs',
    query items_wrapper ∅ = ([], Fulfilled rs)
    /\ query items_wrapper {[ "size" := JString "Main" ]}
       = ([], Fulfilled rs')
    /\ rs' `sublist_of` rs.
Proof.
  apply (query_more_criteria_sublist items_wrapper
           (world_collection ItemClass [rifle; sword; shield])
           ∅ {[ "size" := JString "Main" ]}).
  - reflexivity.
  - reflexivity.
  - apply map_empty_subseteq.
Defined.

Lemma enumerate_non_pack_by_type_witness :
  enumerate items_wrapper
    = ([], Fulfilled [to_GetResult items_wrapper rifle;
                      to_GetResult items_wrapper sword]).
Proof.
  rewrite (enumerate_non_pack_by_type items_wrapper
             (world_collection ItemClass [rifle; sword; shield])
             eq_refl eq_refl).
  reflexivity.
Defined.

Lemma get_result_in_enumerate_witness :
  exists rs, enumerate items_wrapper = ([], Fulfilled rs)
             /\ {| gr_data := Some (doc_data sword); gr_entity := sword;
                   gr_id := "item-2"; gr_type := "mech_weapon" |} ∈ rs.
Proof.
  apply (get_result_in_enumerate items_wrapper
           (world_collection ItemClass [rifle; sword; shield]) "item-2").
  - reflexivity.
  - reflexivity.
  - reflexivity.
Defined.

Lemma enumerate_result_get_witness :
  get items_wrapper (gr_id (to_GetResult items_wrapper sword))
    = ([], Fulfilled (Some (to_GetResult items_wrapper sword))).
Proof.
  apply (enumerate_result_get items_wrapper
           (world_collection ItemClass [rifle; sword; shield])
           [to_GetResult items_wrapper rifle;
            to_GetResult items_wrapper sword]).
  - reflexivity.
  - reflexivity.
  - apply (bool_decide_unpack _). vm_compute. reflexivity.
  - reflexivity.
  - right. left.
Defined.

Lemma create_many_one_bulk_create_witness :
  trace (create_many async_host token_wrapper
           [<["note" := JUndefined]> blade]) = [blade_call]
  /\ trace (create_many async_host token_wrapper [])
     = [CreateDocuments ItemClass []
          {| ctx_parent := Some "actor-1"; ctx_pack := None |}].
Proof.
  split.
  - refine (eq_trans
              (create_many_one_bulk_create async_host token_wrapper
                 (embedded_items "actor-1" [rifle; sword; shield])
                 [<["note" := JUndefined]> blade] eq_refl eq_refl) _).
    vm_compute. reflexivity.
  - apply (create_many_one_bulk_create async_host token_wrapper
             (embedded_items "actor-1" [rifle; sword; shield]) []);
      reflexivity.
Defined.

Lemma create_many_results_witness :
  exists rs,
    outcome (create_many sync_host token_wrapper [blade]) = Fulfilled rs
    /\ length rs = 1.
Proof.
  destruct (create_many_results sync_host token_wrapper
              (embedded_items "actor-1" [rifle; sword; shield]) [blade]
              (created [create_data token_wrapper blade])
              eq_refl eq_refl eq_refl) as (rs & Hrs & Hlen & _).
  exists rs. split; [exact Hrs | exact Hlen].
Defined.

Lemma create_many_unawaited_promise_witness :
  create_many async_host token_wrapper [blade]
    = ([blade_call], Rejected TypeError).
Proof.
  refine (eq_trans
            (create_many_unawaited_promise async_host token_wrapper
               (embedded_items "actor-1" [rifle; sword; shield]) [blade]
               (Fulfilled (created [create_data token_wrapper blade]))
               eq_refl eq_refl eq_refl) _).
  vm_compute. reflexivity.
Defined.

Lemma update_one_bulk_update_witness :
  exists blobs,
    snd (update sample_save update_host items_wrapper
           [sample_entry "Y" (Some "X") "Y"; overridden_entry])
      = ([inr (UpdateDocuments ItemClass blobs
                 {| ctx_parent := None; ctx_pack := None |})],
         Fulfilled [])
    /\ map blob_id blobs = ["reg-1"; "doc-7"].
Proof.
  destruct (update_one_bulk_update sample_save update_host items_wrapper
              (world_collection ItemClass [rifle; sword; shield])
              [sample_entry "Y" (Some "X") "Y"; overridden_entry] eq_refl)
    as (blobs & Hcall & _ & _ & Hids & _).
  exists blobs. split; [exact Hcall | exact Hids].
Defined.

Lemma destroy_one_bulk_delete_witness :
  destroy delete_host token_wrapper "item-9"
    = ([inr (DeleteDocuments ItemClass ["item-9"]
               {| ctx_parent := Some "actor-1"; ctx_pack := None |})],
       Fulfilled []).
Proof.
  apply (destroy_one_bulk_delete delete_host token_wrapper
           (embedded_items "actor-1" [rifle; sword; shield]) "item-9").
  reflexivity.
Defined.
